(** * characteristic: Python attributes without boilerplate

    A shallow embedding of [characteristic.py] (version 14.0dev): the
    [Attribute] metadata class, the class decorators [with_cmp],
    [with_repr], [with_init], [immutable] and their combination
    [attributes], followed by the properties established about them.

    Python objects are modelled by explicit data:
    - a raised exception is a [Raise e] result, a returned value an [Ok v];
    - an instance is its class together with its [__dict__];
    - a class is a name, an identity and an insertion-ordered namespace whose
      entries are the closures the decorators create (a constructor of
      [method] per closure, carrying the variables it closes over);
    - in-place mutation of a class or of an instance is state passing.

    Scope of the model: attribute values are [None], [NOTHING],
    [NotImplemented], booleans, integers and strings, compared and ordered
    as Python 3 does; a method is looked up in the namespace of the class
    itself and then on [object] (base classes are recorded by identity
    only, and an instance's [__dict__] holds attribute values, not
    methods); the frame of a caller is known by its code name. *)

From Stdlib Require Import ZArith String Ascii List Bool Lia.
From Stdlib Require Import DecimalString.
From stdpp Require Import base option list gmap strings.

Local Open Scope string_scope.
Local Open Scope Z_scope.

(** ** Exceptions and results *)

Inductive exn : Type :=
| ValueError (msg : string)
| TypeError (msg : string)
| AttributeError (msg : string)
| RecursionError
| UserError (tag : string).

Inductive result (A : Type) : Type :=
| Ok (a : A)
| Raise (e : exn).
Arguments Ok {A} a.
Arguments Raise {A} e.

#[export] Instance result_ret : MRet result := @Ok.
#[export] Instance result_bind : MBind result :=
  fun A B f r => match r with Ok a => f a | Raise e => Raise e end.

Definition is_ok {A} (r : result A) : bool :=
  match r with Ok _ => true | Raise _ => false end.

(** A computation that mutates a state of type [S] in place: it returns or
    raises, and in both cases leaves a state behind. *)
Definition M (S A : Type) : Type := S -> result A * S.

#[export] Instance M_ret {S} : MRet (M S) := fun A a s => (Ok a, s).
#[export] Instance M_bind {S} : MBind (M S) :=
  fun A B f m s =>
    match m s with
    | (Ok a, s') => f a s'
    | (Raise e, s') => (Raise e, s')
    end.

Definition raise {S A} (e : exn) : M S A := fun s => (Raise e, s).
Definition lift {S A} (r : result A) : M S A := fun s => (r, s).
Definition modify {S} (f : S -> S) : M S unit := fun s => (Ok tt, f s).
Definition gets {S A} (f : S -> A) : M S A := fun s => (Ok (f s), s).

(** ** Python values *)

(** The values stored in attributes: [None], the module's sentinel
    [NOTHING] (the only instance of [_Nothing]), [NotImplemented], booleans,
    integers and strings. *)
Inductive value : Type :=
| VNone
| NOTHING
| NotImplemented
| VBool (b : bool)
| VInt (n : Z)
| VStr (s : string).

#[export] Instance value_eq_dec : EqDecision value.
Proof. solve_decision. Defined.

(** [v is NOTHING] *)
Definition is_NOTHING (v : value) : bool :=
  match v with NOTHING => true | _ => false end.

(** [x is NotImplemented] *)
Definition is_NotImplemented (v : value) : bool :=
  match v with NotImplemented => true | _ => false end.

(** [bool] is a subclass of [int]: [True == 1]. *)
Definition as_int (v : value) : option Z :=
  match v with
  | VBool b => Some (if b then 1 else 0)
  | VInt n => Some n
  | _ => None
  end.

(** Truth value testing, as [if default_value:] performs it.  [_Nothing]
    defines neither [__bool__] nor [__len__], so [NOTHING] is true. *)
Definition truthy (v : value) : bool :=
  match v with
  | VNone => false
  | NOTHING => true
  | NotImplemented => true
  | VBool b => b
  | VInt n => negb (n =? 0)
  | VStr s => negb (String.eqb s "")
  end.

(** [not x] *)
Definition py_not (v : value) : value := VBool (negb (truthy v)).

Definition type_name (v : value) : string :=
  match v with
  | VNone => "NoneType"
  | NOTHING => "_Nothing"
  | NotImplemented => "NotImplementedType"
  | VBool _ => "bool"
  | VInt _ => "int"
  | VStr _ => "str"
  end.

(** [x == y] on these values: numbers by value, strings by content, the
    singletons by identity. *)
Definition py_eq (x y : value) : bool :=
  match as_int x, as_int y with
  | Some a, Some b => a =? b
  | _, _ =>
      match x, y with
      | VNone, VNone => true
      | NOTHING, NOTHING => true
      | NotImplemented, NotImplemented => true
      | VStr s, VStr t => String.eqb s t
      | _, _ => false
      end
  end.

Inductive cmpop : Type := Py_LT | Py_LE | Py_EQ | Py_NE | Py_GT | Py_GE.

Definition cmpop_symbol (op : cmpop) : string :=
  match op with
  | Py_LT => "<" | Py_LE => "<=" | Py_EQ => "==" | Py_NE => "!="
  | Py_GT => ">" | Py_GE => ">="
  end.

Definition cmp_Z (op : cmpop) (a b : Z) : bool :=
  match op with
  | Py_LT => a <? b | Py_LE => a <=? b | Py_EQ => a =? b
  | Py_NE => negb (a =? b) | Py_GT => b <? a | Py_GE => b <=? a
  end.

Definition cmp_string (op : cmpop) (s t : string) : bool :=
  match op with
  | Py_LT => String.ltb s t | Py_LE => String.leb s t | Py_EQ => String.eqb s t
  | Py_NE => negb (String.eqb s t) | Py_GT => String.ltb t s
  | Py_GE => String.leb t s
  end.

(** [x op y] for one pair of values.  Numbers and strings are ordered among
    themselves; any other ordering comparison raises [TypeError]. *)
Definition py_richcompare (op : cmpop) (x y : value) : result bool :=
  match op with
  | Py_EQ => Ok (py_eq x y)
  | Py_NE => Ok (negb (py_eq x y))
  | _ =>
      match as_int x, as_int y with
      | Some a, Some b => Ok (cmp_Z op a b)
      | _, _ =>
          match x, y with
          | VStr s, VStr t => Ok (cmp_string op s t)
          | _, _ =>
              Raise (TypeError ("'" +:+ cmpop_symbol op
                                +:+ "' not supported between instances of '"
                                +:+ type_name x +:+ "' and '"
                                +:+ type_name y +:+ "'"))
          end
      end
  end.

Definition cmp_size (op : cmpop) (n m : nat) : bool :=
  cmp_Z op (Z.of_nat n) (Z.of_nat m).

(** Comparison of two tuples: skip the common prefix of equal items; if one
    tuple is exhausted compare the lengths, otherwise the first pair of
    items that differ decides. *)
Fixpoint tuple_richcompare (op : cmpop) (v w : list value) : result bool :=
  match v, w with
  | x :: v', y :: w' =>
      if py_eq x y then tuple_richcompare op v' w'
      else match op with
           | Py_EQ => Ok false
           | Py_NE => Ok true
           | _ => py_richcompare op x y
           end
  | _, _ => Ok (cmp_size op (length v) (length w))
  end.

(** The builtin [hash] on values.  String hashes are keyed per process, so
    the function is an interface; what Python guarantees of it is that
    values that compare equal hash equal. *)
Class PyHash : Type := {
  py_hash : value -> Z;
  py_hash_eq : forall x y, py_eq x y = true -> py_hash x = py_hash y
}.

(** [hash] of a tuple (CPython, 64-bit [Py_uhash_t]): the items' hashes are
    folded into an accumulator, all arithmetic wrapping at [2^64]. *)
Definition uhash_modulus : Z := 2 ^ 64.
Definition _PyHASH_XXPRIME_1 : Z := 11400714785074694791.
Definition _PyHASH_XXPRIME_2 : Z := 14029467366897019727.
Definition _PyHASH_XXPRIME_5 : Z := 2870177450012600261.
Definition _PyHASH_XXROTATE (x : Z) : Z :=
  Z.lor (Z.shiftl x 31 mod uhash_modulus) (Z.shiftr x 33).

Definition tuplehash_lane (acc lane : Z) : Z :=
  let acc := (acc + (lane mod uhash_modulus) * _PyHASH_XXPRIME_2)
             mod uhash_modulus in
  let acc := _PyHASH_XXROTATE acc in
  (acc * _PyHASH_XXPRIME_1) mod uhash_modulus.

Definition tuplehash_lanes (lanes : list Z) : Z :=
  let acc := fold_left tuplehash_lane lanes _PyHASH_XXPRIME_5 in
  let acc := (acc + Z.lxor (Z.of_nat (length lanes))
                           (Z.lxor _PyHASH_XXPRIME_5 3527539))
             mod uhash_modulus in
  if acc =? uhash_modulus - 1 then 1546275796
  else if acc <? 2 ^ 63 then acc else acc - uhash_modulus.

Definition hash_tuple `{PyHash} (t : list value) : Z :=
  tuplehash_lanes (map py_hash t).

(** ** [Attribute] *)

(** A default factory: a callable taking no argument.  [factory_truth] is
    its truth value, which [Attribute.__getattr__] tests. *)
Record factory : Type := {
  factory_call : unit -> result value;
  factory_truth : bool
}.

(** The three [__slots__] of an [Attribute].  [_default] and
    [_default_factory] are [None] while the slot is unset. *)
Record Attribute : Type := {
  name : string;
  _default : option value;
  _default_factory : option factory
}.

(** [Attribute.__init__(self, name, default_value=NOTHING,
    default_factory=None)]; [default_factory = None] is Python's [None]. *)
Definition Attribute_init (name : string) (default_value : value)
    (default_factory : option factory) : result Attribute :=
  if negb (is_NOTHING default_value) && bool_decide (is_Some default_factory)
  then Raise (ValueError
         "Passing both default_value and default_factory is ambiguous.")
  else if negb (is_NOTHING default_value) then
    Ok {| name := name; _default := Some default_value;
          _default_factory := None |}
  else match default_factory with
       | Some f =>
           Ok {| name := name; _default := None; _default_factory := Some f |}
       | None =>
           Ok {| name := name; _default := Some NOTHING;
                 _default_factory := None |}
       end.

Definition no_attribute (attr : string) : exn :=
  AttributeError attr.

(** [Attribute.__getattr__(self, name)], called when the ordinary lookup of
    [name] fails.  Reading [self._default_factory] while that slot is unset
    re-enters [__getattr__], which raises. *)
Definition Attribute_getattr (self : Attribute) (attr : string)
    : result value :=
  if String.eqb attr "_default" then
    match _default_factory self with
    | Some f =>
        if factory_truth f then factory_call f tt
        else Raise (no_attribute attr)
    | None => Raise (no_attribute "_default_factory")
    end
  else Raise (no_attribute attr).

(** [a._default] *)
Definition get_default (a : Attribute) : result value :=
  match _default a with
  | Some v => Ok v
  | None => Attribute_getattr a "_default"
  end.

(** An element of an [attrs] argument: a plain name or an [Attribute]. *)
Inductive attr_decl : Type :=
| Name (s : string)
| Attr (a : Attribute).

Definition isinstance_Attribute (a : attr_decl) : bool :=
  match a with Attr _ => true | Name _ => false end.

Fixpoint _ensure_attributes (attrs : list attr_decl)
    : result (list Attribute) :=
  match attrs with
  | [] => Ok []
  | a :: rest =>
      x ← (match a with
           | Name s => Attribute_init s NOTHING None
           | Attr a' => Ok a'
           end);
      xs ← _ensure_attributes rest;
      Ok (x :: xs)
  end.

(** ** Classes, instances and the closures installed on classes *)

(** The functions that can sit in a class namespace.  Each closure created
    by a decorator is a constructor carrying the [attrs] it closed over;
    [user_function] is a method written by the class's author, given by its
    net effect on the instance's [__dict__]. *)
Inductive method : Type :=
| object_setattr
| object_init
| user_function
    (body : list value -> gmap string value -> M (gmap string value) unit)
| eq_closure (attrs : list Attribute)
| ne_closure (attrs : list Attribute)
| lt_closure (attrs : list Attribute)
| le_closure (attrs : list Attribute)
| gt_closure (attrs : list Attribute)
| ge_closure (attrs : list Attribute)
| hash_closure (attrs : list Attribute)
| repr_closure (attrs : list Attribute)
| characteristic_init_closure (attrs : list Attribute)
| sentry_closure (attrs : gset string).

(** An insertion-ordered dictionary: assigning an existing key keeps its
    position, a new key goes last. *)
Fixpoint dict_get {V} (d : list (string * V)) (k : string) : option V :=
  match d with
  | [] => None
  | (k', v) :: d' => if String.eqb k' k then Some v else dict_get d' k
  end.

Fixpoint dict_set {V} (k : string) (v : V) (d : list (string * V))
    : list (string * V) :=
  match d with
  | [] => [(k, v)]
  | (k', v') :: d' =>
      if String.eqb k' k then (k, v) :: d' else (k', v') :: dict_set k v d'
  end.

(** A class object: [c_id] is its identity (what [is] compares), [c_name]
    its [__name__], [c_bases] the identities of its base classes and
    [c_dict] its own namespace. *)
Record class : Type := {
  c_id : nat;
  c_name : string;
  c_bases : list nat;
  c_dict : list (string * method)
}.

(** An instance: [self.__class__] and [self.__dict__]. *)
Record instance : Type := {
  i_class : class;
  i_dict : gmap string value
}.

(** What every class inherits from [object], as far as the decorators look
    it up. *)
Definition object_getattr (attr : string) : option method :=
  if String.eqb attr "__setattr__" then Some object_setattr
  else if String.eqb attr "__init__" then Some object_init
  else None.

(** [hasattr(cl, attr)] and [getattr(cl, attr)]: the class's own namespace,
    then [object]. *)
Definition class_lookup (cl : class) (attr : string) : option method :=
  match dict_get (c_dict cl) attr with
  | Some m => Some m
  | None => object_getattr attr
  end.

Definition class_getattr (attr : string) : M class method :=
  fun cl =>
    match class_lookup cl attr with
    | Some m => (Ok m, cl)
    | None => (Raise (no_attribute attr), cl)
    end.

(** [cl.attr = m] *)
Definition class_setattr (attr : string) (m : method) : M class unit :=
  modify (fun cl =>
    {| c_id := c_id cl; c_name := c_name cl; c_bases := c_bases cl;
       c_dict := dict_set attr m (c_dict cl) |}).

(** [cl1 is cl2] *)
Definition class_is (cl1 cl2 : class) : bool := Nat.eqb (c_id cl1) (c_id cl2).

(** [getattr(obj, attr)] for an attribute value. *)
Definition getattr (obj : instance) (attr : string) : result value :=
  match i_dict obj !! attr with
  | Some v => Ok v
  | None => Raise (no_attribute attr)
  end.

(** [object.__setattr__(self, attr, value)] *)
Definition store (attr : string) (v : value) (self : instance) : instance :=
  {| i_class := i_class self; i_dict := <[attr := v]> (i_dict self) |}.

(** ** [with_cmp] *)

Module with_cmp.

Fixpoint attrs_to_tuple (attrs : list Attribute) (obj : instance)
    : result (list value) :=
  match attrs with
  | [] => Ok []
  | a :: rest =>
      v ← getattr obj (name a);
      vs ← attrs_to_tuple rest obj;
      Ok (v :: vs)
  end.

Definition eq (attrs : list Attribute) (self other : instance)
    : result value :=
  if class_is (i_class other) (i_class self) then
    t1 ← attrs_to_tuple attrs self;
    t2 ← attrs_to_tuple attrs other;
    b ← tuple_richcompare Py_EQ t1 t2;
    Ok (VBool b)
  else Ok NotImplemented.

Definition ne (attrs : list Attribute) (self other : instance)
    : result value :=
  res ← eq attrs self other;
  if is_NotImplemented res then Ok NotImplemented
  else Ok (py_not res).

Definition lt (attrs : list Attribute) (self other : instance)
    : result value :=
  if class_is (i_class other) (i_class self) then
    t1 ← attrs_to_tuple attrs self;
    t2 ← attrs_to_tuple attrs other;
    b ← tuple_richcompare Py_LT t1 t2;
    Ok (VBool b)
  else Ok NotImplemented.

Definition le (attrs : list Attribute) (self other : instance)
    : result value :=
  if class_is (i_class other) (i_class self) then
    t1 ← attrs_to_tuple attrs self;
    t2 ← attrs_to_tuple attrs other;
    b ← tuple_richcompare Py_LE t1 t2;
    Ok (VBool b)
  else Ok NotImplemented.

Definition gt (attrs : list Attribute) (self other : instance)
    : result value :=
  if class_is (i_class other) (i_class self) then
    t1 ← attrs_to_tuple attrs self;
    t2 ← attrs_to_tuple attrs other;
    b ← tuple_richcompare Py_GT t1 t2;
    Ok (VBool b)
  else Ok NotImplemented.

Definition ge (attrs : list Attribute) (self other : instance)
    : result value :=
  if class_is (i_class other) (i_class self) then
    t1 ← attrs_to_tuple attrs self;
    t2 ← attrs_to_tuple attrs other;
    b ← tuple_richcompare Py_GE t1 t2;
    Ok (VBool b)
  else Ok NotImplemented.

Definition hash_ `{PyHash} (attrs : list Attribute) (self : instance)
    : result Z :=
  t ← attrs_to_tuple attrs self;
  Ok (hash_tuple t).

Definition wrap (attrs : list Attribute) : M class unit :=
  _ ← class_setattr "__eq__" (eq_closure attrs);
  _ ← class_setattr "__ne__" (ne_closure attrs);
  _ ← class_setattr "__lt__" (lt_closure attrs);
  _ ← class_setattr "__le__" (le_closure attrs);
  _ ← class_setattr "__gt__" (gt_closure attrs);
  _ ← class_setattr "__ge__" (ge_closure attrs);
  class_setattr "__hash__" (hash_closure attrs).

(** [with_cmp(attrs)]: normalise [attrs], return the decorator [wrap]. *)
Definition decorator (attrs : list attr_decl) : result (M class unit) :=
  attrs ← _ensure_attributes attrs;
  Ok (wrap attrs).

End with_cmp.

(** ** [repr] of values *)

(** [sep.join(parts)] *)
Fixpoint join (sep : string) (parts : list string) : string :=
  match parts with
  | [] => ""
  | [x] => x
  | x :: rest => x +:+ sep +:+ join sep rest
  end.

Definition double_quote : ascii := ascii_of_nat 34.
Definition single_quote : ascii := "'"%char.
Definition backslash : ascii := ascii_of_nat 92.

Fixpoint has_char (c : ascii) (s : string) : bool :=
  match s with
  | EmptyString => false
  | String c' s' => Ascii.eqb c c' || has_char c s'
  end.

Definition hex_digit (n : nat) : ascii :=
  nth n ["0"; "1"; "2"; "3"; "4"; "5"; "6"; "7"; "8"; "9";
         "a"; "b"; "c"; "d"; "e"; "f"]%char "0"%char.

(** The printable code points below 256: neither controls nor the
    no-break space nor the soft hyphen. *)
Definition is_printable (n : nat) : bool :=
  ((32 <=? n) && (n <? 127))%nat || ((161 <=? n) && negb (n =? 173))%nat.

(** How [repr] of a string writes one character between [quote]s. *)
Definition repr_char (quote c : ascii) : string :=
  let n := nat_of_ascii c in
  if Ascii.eqb c quote || Ascii.eqb c backslash
  then String backslash (String c "")
  else if (n =? 9)%nat then String backslash "t"
  else if (n =? 10)%nat then String backslash "n"
  else if (n =? 13)%nat then String backslash "r"
  else if is_printable n then String c ""
  else String backslash
         (String "x" (String (hex_digit (n / 16))
                        (String (hex_digit (n mod 16)) ""))).

Fixpoint repr_chars (quote : ascii) (s : string) : string :=
  match s with
  | EmptyString => ""
  | String c s' => repr_char quote c +:+ repr_chars quote s'
  end.

(** [repr] of a string: single quotes, unless the string holds single
    quotes and no double quote. *)
Definition repr_str (s : string) : string :=
  let quote :=
    if has_char single_quote s && negb (has_char double_quote s)
    then double_quote else single_quote in
  String quote (repr_chars quote s +:+ String quote "").

(** [repr(v)].  For [NOTHING] it is [_Nothing.__repr__]. *)
Definition py_repr (v : value) : string :=
  match v with
  | VNone => "None"
  | NOTHING => "NOTHING"
  | NotImplemented => "NotImplemented"
  | VBool b => if b then "True" else "False"
  | VInt n => NilZero.string_of_int (Z.to_int n)
  | VStr s => repr_str s
  end.

(** ** [with_repr] *)

Module with_repr.

(** The generator [a.name + "=" + repr(getattr(self, a.name)) for a in
    attrs]. *)
Fixpoint fields (attrs : list Attribute) (self : instance)
    : result (list string) :=
  match attrs with
  | [] => Ok []
  | a :: rest =>
      v ← getattr self (name a);
      fs ← fields rest self;
      Ok ((name a +:+ "=" +:+ py_repr v) :: fs)
  end.

Definition repr_ (attrs : list Attribute) (self : instance)
    : result string :=
  fs ← fields attrs self;
  Ok ("<" +:+ c_name (i_class self) +:+ "(" +:+ join ", " fs +:+ ")>").

Definition wrap (attrs : list Attribute) : M class unit :=
  class_setattr "__repr__" (repr_closure attrs).

(** [with_repr(attrs)]: normalise [attrs], return the decorator [wrap]. *)
Definition decorator (attrs : list attr_decl) : result (M class unit) :=
  attrs ← _ensure_attributes attrs;
  Ok (wrap attrs).

End with_repr.

(** ** Calls and frames *)

(** What the sentry can see of an execution frame: [f_code.co_name].
    [f_owner] records the class, if any, whose method the frame is running
    ([None] for module-level code and free functions); no code of the module
    reads it. *)
Record frame : Type := {
  co_name : string;
  f_owner : option nat
}.

(** A call [m(self, *args, **kw)] made from the frame [f_back], as a
    statement (the returned value is dropped). *)
Definition caller : Type :=
  method -> option frame -> list value -> gmap string value ->
  M instance unit.

(** [self.attr] called with [args] and [kw] from the frame [here], the
    method being found on the class of [self]. *)
Definition call_attribute (call : caller) (attr : string) (here : frame)
    (args : list value) (kw : gmap string value) : M instance unit :=
  fun self =>
    match class_lookup (i_class self) attr with
    | Some m => call m (Some here) args kw self
    | None => (Raise (no_attribute attr), self)
    end.

(** ** [immutable] *)

Definition _VALID_INITS : gset string :=
  {[ "characteristic_init"; "__init__" ]}.

Module immutable.

(** The [frozenset] of protected names built by [immutable(attrs)]. *)
Definition protected (attrs : list attr_decl) : result (gset string) :=
  l ← _ensure_attributes attrs;
  Ok (list_to_set (map name l)).

(** [attr not in attrs] for the [frozenset] of strings [attrs]. *)
Definition not_in (attr : value) (attrs : gset string) : bool :=
  match attr with
  | VStr s => bool_decide (s ∉ attrs)
  | _ => true
  end.

Definition characteristic_immutability_sentry (call : caller)
    (attrs : gset string) (f_back : option frame) (attr v : value)
    : M instance unit :=
  fun self =>
    let prev := f_back in
    if not_in attr attrs
       || match prev with
          | Some fr => bool_decide (co_name fr ∈ _VALID_INITS)
          | None => false
          end
    then
      call_attribute call "__original_setattr__"
        {| co_name := "characteristic_immutability_sentry";
           f_owner := Some (c_id (i_class self)) |}
        [attr; v] ∅ self
    else
      (Raise (TypeError
         ("Attribute '" +:+ match attr with VStr s => s | _ => "" end
          +:+ "' of class '" +:+ c_name (i_class self)
          +:+ "' is immutable.")), self).

Definition wrap (attrs : gset string) : M class unit :=
  m ← class_getattr "__setattr__";
  _ ← class_setattr "__original_setattr__" m;
  class_setattr "__setattr__" (sentry_closure attrs).

(** [immutable(attrs)] *)
Definition decorator (attrs : list attr_decl) : result (M class unit) :=
  attrs ← protected attrs;
  Ok (wrap attrs).

End immutable.

(** ** [with_init] *)

Module with_init.

(** The [for a in attrs] loop of [characteristic_init]; it returns what
    is left of [kw]. *)
Fixpoint set_attributes (call : caller) (attrs : list Attribute)
    (kw : gmap string value) : M instance (gmap string value) :=
  match attrs with
  | [] => mret kw
  | a :: rest =>
      let v := default NOTHING (kw !! name a) in
      let kw := delete (name a) kw in
      v ← (if is_NOTHING v then lift (get_default a) else mret v);
      if is_NOTHING v then
        raise (ValueError
                 ("Missing keyword value for '" +:+ name a +:+ "'."))
      else
        self ← gets id;
        _ ← call_attribute call "__characteristic_setattr__"
              {| co_name := "characteristic_init";
                 f_owner := Some (c_id (i_class self)) |}
              [VStr (name a); v] ∅;
        set_attributes call rest kw
  end.

Definition characteristic_init (call : caller) (attrs : list Attribute)
    (args : list value) (kw : gmap string value) : M instance unit :=
  kw ← set_attributes call attrs kw;
  self ← gets id;
  call_attribute call "__original_init__"
    {| co_name := "characteristic_init";
       f_owner := Some (c_id (i_class self)) |}
    args kw.

Definition wrap (attrs : list Attribute) : M class unit :=
  init ← class_getattr "__init__";
  _ ← class_setattr "__original_init__" init;
  _ ← class_setattr "__init__" (characteristic_init_closure attrs);
  (* Sidestep immutability sentry completely if possible.. *)
  current ← class_getattr "__setattr__";
  cl ← gets id;
  class_setattr "__characteristic_setattr__"
    (default current (class_lookup cl "__original_setattr__")).

Definition mixing_message : string :=
  "Mixing of the 'defaults' keyword argument and passing "
  +:+ "instances of Attribute for 'attrs' is prohibited.  "
  +:+ "Please don't use 'defaults' anymore, it has been "
  +:+ "deprecated in 14.0.".

(** The loop that builds [new_attrs]. *)
Fixpoint new_attrs (attrs : list attr_decl) (defaults : gmap string value)
    : result (list Attribute) :=
  match attrs with
  | [] => Ok []
  | a :: rest =>
      x ← (match a with
           | Attr a' =>
               if bool_decide (defaults ≠ ∅)
               then Raise (ValueError mixing_message)
               else Ok a'
           | Name s =>
               let default_value := default VNone (defaults !! s) in
               if truthy default_value
               then Attribute_init s default_value None
               else Attribute_init s NOTHING None
           end);
      xs ← new_attrs rest defaults;
      Ok (x :: xs)
  end.

(** [with_init(attrs, defaults=None)] *)
Definition decorator (attrs : list attr_decl)
    (defaults : option (gmap string value)) : result (M class unit) :=
  let defaults := default ∅ defaults in
  attrs ← new_attrs attrs defaults;
  Ok (wrap attrs).

End with_init.

(** ** Running the installed closures *)

Definition wrong_arguments : exn :=
  TypeError "wrong number or kind of arguments".

(** The interpreter's recursion limit: a call nested deeper raises
    [RecursionError]. *)
Definition recursion_limit : nat := 1000.

(** [m(self, *args, **kw)] called from [f_back], with [depth] nested calls
    still allowed. *)
Fixpoint call_method (depth : nat) (m : method) (f_back : option frame)
    (args : list value) (kw : gmap string value) : M instance unit :=
  match depth with
  | O => raise RecursionError
  | S depth =>
      match m with
      | object_setattr =>
          match args with
          | [VStr attr; v] =>
              if bool_decide (kw = ∅) then modify (store attr v)
              else raise wrong_arguments
          | _ => raise wrong_arguments
          end
      | object_init =>
          match args with
          | [] =>
              if bool_decide (kw = ∅) then mret tt
              else raise wrong_arguments
          | _ => raise wrong_arguments
          end
      | user_function body =>
          fun self =>
            let (r, d) := body args kw (i_dict self) in
            (r, {| i_class := i_class self; i_dict := d |})
      | eq_closure _ | ne_closure _ | lt_closure _ | le_closure _
      | gt_closure _ | ge_closure _ =>
          (* [other] is a plain value, never of [self]'s class: the
             closure returns [NotImplemented] *)
          match args with
          | [_] => if bool_decide (kw = ∅) then mret tt
                   else raise wrong_arguments
          | _ => raise wrong_arguments
          end
      | hash_closure attrs | repr_closure attrs =>
          match args with
          | [] =>
              if bool_decide (kw = ∅) then
                self ← gets id;
                _ ← lift (with_cmp.attrs_to_tuple attrs self);
                mret tt
              else raise wrong_arguments
          | _ => raise wrong_arguments
          end
      | characteristic_init_closure attrs =>
          with_init.characteristic_init (call_method depth) attrs args kw
      | sentry_closure attrs =>
          match args with
          | [attr; v] =>
              if bool_decide (kw = ∅) then
                immutable.characteristic_immutability_sentry
                  (call_method depth) attrs f_back attr v
              else raise wrong_arguments
          | _ => raise wrong_arguments
          end
      end
  end.

(** The statement [self.attr = v] executed in the frame [here]. *)
Definition assign (here : frame) (attr : string) (v : value)
    : M instance unit :=
  call_attribute (call_method recursion_limit) "__setattr__" here
    [VStr attr; v] ∅.

(** The expression [cl] called with [args] and [kw] evaluated in the frame [here]: a new
    empty instance is initialised by [__init__]. *)
Definition construct (cl : class) (here : frame) (args : list value)
    (kw : gmap string value) : result instance :=
  match call_attribute (call_method recursion_limit) "__init__" here args kw
          {| i_class := cl; i_dict := ∅ |} with
  | (Ok _, self) => Ok self
  | (Raise e, _) => Raise e
  end.

(** ** [attributes] *)

Module attributes.

Definition wrap (attrs : list attr_decl)
    (defaults : option (gmap string value))
    (create_init make_immutable : bool) : M class unit :=
  cmp ← lift (with_cmp.decorator attrs);
  rep ← lift (with_repr.decorator attrs);
  _ ← rep;
  _ ← cmp;
  (* Order matters here because with_init can optimize and side-step
     immutable's sentry function. *)
  _ ← (if make_immutable then
         imm ← lift (immutable.decorator attrs); imm
       else mret tt);
  if create_init then
    ini ← lift (with_init.decorator attrs defaults); ini
  else mret tt.

End attributes.

(** ** Notions used to state the properties *)

(** [needle in hay] for strings. *)
Fixpoint contains (needle hay : string) : bool :=
  String.prefix needle hay
  || match hay with
     | EmptyString => false
     | String _ hay' => contains needle hay'
     end.

(** [obj] carries a value for every attribute of [attrs]. *)
Definition has_attributes (attrs : list Attribute) (obj : instance) : bool :=
  forallb (fun a => bool_decide (is_Some (i_dict obj !! name a))) attrs.

(** Equality of two instances attribute by attribute, each pair of values
    compared with its own [==]. *)
Definition pairwise_equal (attrs : list Attribute) (a b : instance) : bool :=
  forallb (fun x =>
             match i_dict a !! name x, i_dict b !! name x with
             | Some u, Some v => py_eq u v
             | _, _ => false
             end) attrs.

(** The frame [here] runs an initializer of the class [cl] itself. *)
Definition in_constructor (cl : class) (here : frame) : Prop :=
  f_owner here = Some (c_id cl) /\ co_name here ∈ _VALID_INITS.

(** The order of attachment as the specification words it: comparison,
    representation, then the guard, then the initializer. *)
Definition compose_in_specified_order (cmp_attrs : list Attribute)
    (protected : gset string) (init_attrs : list Attribute)
    (create_init make_immutable : bool) : M class unit :=
  _ ← with_cmp.wrap cmp_attrs;
  _ ← with_repr.wrap cmp_attrs;
  _ ← (if make_immutable then immutable.wrap protected else mret tt);
  if create_init then with_init.wrap init_attrs else mret tt.

(** The class as [attributes] leaves it once comparison, representation
    and, if asked for, the sentry are attached. *)
Definition before_initializer (l : list Attribute) (make_immutable : bool)
    (cl0 : class) : class :=
  let cl1 := snd (with_cmp.wrap l (snd (with_repr.wrap l cl0))) in
  if make_immutable
  then snd (immutable.wrap (list_to_set (map name l)) cl1)
  else cl1.

(** The name an element of [attrs] declares. *)
Definition declared_name (a : attr_decl) : string :=
  match a with
  | Name s => s
  | Attr a' => name a'
  end.

(** What [_ensure_attributes] makes of a plain name. *)
Definition required (s : string) : Attribute :=
  {| name := s; _default := Some NOTHING; _default_factory := None |}.

(** The value the initializer finds for [a]: the keyword argument, or the
    default when the argument is absent or is [NOTHING]. *)
Definition resolve (a : Attribute) (kw : gmap string value) : result value :=
  match kw !! name a with
  | Some v => if is_NOTHING v then get_default a else Ok v
  | None => get_default a
  end.

(** The initializer finds a value for [a], and it is not [NOTHING]. *)
Definition resolved (kw : gmap string value) (a : Attribute) : Prop :=
  exists v, resolve a kw = Ok v /\ is_NOTHING v = false.

(** The [__dict__] once every attribute of [attrs] holds the value found
    for it. *)
Fixpoint attribute_values (attrs : list Attribute) (kw : gmap string value)
    (d : gmap string value) : gmap string value :=
  match attrs with
  | [] => d
  | a :: rest =>
      match resolve a kw with
      | Ok v => attribute_values rest kw (<[name a := v]> d)
      | Raise _ => attribute_values rest kw d
      end
  end.

(** The keyword arguments that name no attribute of [attrs]. *)
Definition remaining_keywords (attrs : list Attribute)
    (kw : gmap string value) : gmap string value :=
  foldr (fun a k => delete (name a) k) kw attrs.

(** A computation on an instance that leaves its class alone. *)
Definition keeps_class {A} (m : M instance A) : Prop :=
  forall self, i_class (snd (m self)) = i_class self.

(** The thirteen names that [attributes] assigns in a class namespace. *)
Definition assigned_names : list string :=
  ["__repr__"; "__eq__"; "__ne__"; "__lt__"; "__le__"; "__gt__"; "__ge__";
   "__hash__"; "__original_setattr__"; "__setattr__"; "__original_init__";
   "__init__"; "__characteristic_setattr__"].

(** The body the comparison methods share, up to the operator. *)
Definition compare_tuples (op : cmpop) (attrs : list Attribute)
    (self other : instance) : result value :=
  if class_is (i_class other) (i_class self) then
    t1 ← with_cmp.attrs_to_tuple attrs self;
    t2 ← with_cmp.attrs_to_tuple attrs other;
    b ← tuple_richcompare op t1 t2;
    Ok (VBool b)
  else Ok NotImplemented.

(** The operator with its operands exchanged. *)
Definition mirrored (op : cmpop) : cmpop :=
  match op with
  | Py_LT => Py_GT | Py_LE => Py_GE | Py_EQ => Py_EQ
  | Py_NE => Py_NE | Py_GT => Py_LT | Py_GE => Py_LE
  end.



(** ** Example classes *)

Module Examples.

(** [class cname(object): pass] *)
Definition plain (ident : nat) (cname : string) : class :=
  {| c_id := ident; c_name := cname; c_bases := []; c_dict := [] |}.

(** Code running at module level. *)
Definition module_level : frame :=
  {| co_name := "<module>"; f_owner := None |}.

(** The class left behind by a decorator. *)
Definition decorated (w : M class unit) (cl : class) : class := snd (w cl).

Definition xy : list Attribute :=
  [ {| name := "x"; _default := Some NOTHING; _default_factory := None |};
    {| name := "y"; _default := Some NOTHING; _default_factory := None |} ].

(** An instance of [cl] with integer attributes [x] and [y]. *)
Definition point (cl : class) (x y : Z) : instance :=
  {| i_class := cl;
     i_dict := <["x" := VInt x]> (<["y" := VInt y]> ∅) |}.

(** [@attributes(["x", "y"]) class Point(object): pass] *)
Definition Point : class :=
  decorated (attributes.wrap [Name "x"; Name "y"] None true true)
            (plain 1 "Point").

(** [@attributes(["id"]) class Person(object): pass] *)
Definition Person : class :=
  decorated (attributes.wrap [Name "id"] None true true) (plain 2 "Person").

(** The [__init__] of some other class, whose identity is [42]. *)
Definition foreign_init : frame :=
  {| co_name := "__init__"; f_owner := Some 42%nat |}.

(** [@with_init(["x"], defaults={"x": dv}) class Legacy(object): pass] *)
Definition Legacy (dv : value) : result class :=
  w ← with_init.decorator [Name "x"] (Some {[ "x" := dv ]});
  Ok (decorated w (plain 3 "Legacy")).

(** [@with_init([Attribute("x", default_value=dv)])
     class Modern(object): pass] *)
Definition Modern (dv : value) : result class :=
  a ← Attribute_init "x" dv None;
  w ← with_init.decorator [Attr a] None;
  Ok (decorated w (plain 4 "Modern")).

(** [class SubPoint(Point): pass]: a subclass, with the namespace it
    inherits. *)
Definition SubPoint : class :=
  {| c_id := 9; c_name := "SubPoint"; c_bases := [c_id Point];
     c_dict := c_dict Point |}.

(** [@attributes(["left", "right"]) class Pair(object): pass] *)
Definition Pair : class :=
  decorated (attributes.wrap [Name "left"; Name "right"] None true true)
            (plain 6 "Pair").

(** [@immutable(["y"]) class Guarded(object): pass], and the same class
    decorated once more with
    [attributes(["x"], make_immutable=False)]. *)
Definition Guarded : class :=
  decorated (immutable.wrap {[ "y" ]}) (plain 7 "Guarded").

Definition GuardedThenInit : class :=
  decorated (attributes.wrap [Name "x"] None true false) Guarded.

(** A class whose own [__setattr__] refuses every assignment, made
    immutable for [x]. *)
Definition Frozen : class :=
  decorated (immutable.wrap {[ "x" ]})
    {| c_id := 8; c_name := "Frozen"; c_bases := [];
       c_dict := [("__setattr__",
                   user_function (fun _ _ => raise (UserError "frozen")))]
    |}.

(** A class whose own [__init__] records how many positional and keyword
    arguments it received, decorated with [attributes(["x"])]. *)
Definition counting_init (args : list value) (kw : gmap string value)
    : M (gmap string value) unit :=
  modify (fun d => <["n_args" := VInt (Z.of_nat (length args))]>
                     (<["n_kw" := VInt (Z.of_nat (size kw))]> d)).

Definition Hooked : class :=
  decorated (attributes.wrap [Name "x"] None true true)
    {| c_id := 10; c_name := "Hooked"; c_bases := [];
       c_dict := [("__init__", user_function counting_init)] |}.

(** [@immutable(["x"]) @immutable(["y"]) class Twice(object): pass] *)
Definition Twice : class :=
  decorated (immutable.wrap {[ "x" ]})
    (decorated (immutable.wrap {[ "y" ]}) (plain 11 "Twice")).

(** A factory that raises, and [Attribute("x", default_factory=failing)]. *)
Definition failing : factory :=
  {| factory_call := fun _ => Raise (UserError "no default");
     factory_truth := true |}.

Definition x_failing : Attribute :=
  {| name := "x"; _default := None; _default_factory := Some failing |}.

(** [@with_init([Attribute("x", default_factory=failing)])
     class Unlucky(object): pass] *)
Definition Unlucky : class :=
  decorated (with_init.wrap [x_failing]) (plain 12 "Unlucky").

(** [lambda: 2] *)
Definition lambda_two : factory :=
  {| factory_call := fun _ => Ok (VInt 2); factory_truth := true |}.

(** Numbers hash to their value, everything else to a constant: a hash
    that respects [==]. *)
Definition number_hash (v : value) : Z :=
  match as_int v with
  | Some n => n
  | None => 0
  end.

Definition number_PyHash : PyHash.
Proof.
  refine {| py_hash := number_hash |}.
  intros x y. unfold py_eq, number_hash.
  destruct x, y; cbn [as_int]; intros H;
    try discriminate H; try reflexivity;
    apply Z.eqb_eq in H; exact H.
Defined.

End Examples.

(** * Properties *)

Ltac unfold_monad :=
  unfold mbind, mret, M_bind, M_ret, result_bind, result_ret,
         raise, lift, modify, gets in *.

Ltac run := repeat (unfold_monad; simpl in * ).

(** ** Strings *)

Lemma prefix_app (s t : string) : String.prefix s (s +:+ t) = true.
Proof.
  induction s as [|c s IH]; simpl.
  - now destruct t.
  - destruct (Ascii.ascii_dec c c) as [_|Hc]; [exact IH | congruence].
Qed.

Lemma append_assoc (s t u : string) : s +:+ t +:+ u = (s +:+ t) +:+ u.
Proof.
  induction s as [|c s IH]; [reflexivity|].
  change (String c (s +:+ t +:+ u) = String c ((s +:+ t) +:+ u)).
  now rewrite IH.
Qed.

Lemma contains_prefix (needle hay : string) :
  String.prefix needle hay = true -> contains needle hay = true.
Proof. intros H. destruct hay; simpl in *; rewrite H; reflexivity. Qed.

Lemma contains_app (pre needle post : string) :
  contains needle (pre +:+ needle +:+ post) = true.
Proof.
  induction pre as [|c pre IH].
  - change ("" +:+ needle +:+ post) with (needle +:+ post).
    apply contains_prefix, prefix_app.
  - change (contains needle (String c (pre +:+ needle +:+ post)) = true).
    simpl. rewrite IH. apply orb_true_r.
Qed.

(** ** Class namespaces *)

Lemma dict_get_set {V} (k k' : string) (v : V) (d : list (string * V)) :
  dict_get (dict_set k v d) k' =
  if String.eqb k k' then Some v else dict_get d k'.
Proof.
  induction d as [|[k0 v0] d IH]; simpl.
  - reflexivity.
  - destruct (String.eqb k0 k) eqn:E0; simpl.
    + apply String.eqb_eq in E0. subst k0.
      destruct (String.eqb k k'); reflexivity.
    + rewrite IH. destruct (String.eqb k0 k') eqn:E1; [|reflexivity].
      apply String.eqb_eq in E1. subst k0.
      now rewrite String.eqb_sym, E0.
Qed.

Lemma class_setattr_run (k : string) (m : method) (cl : class) :
  class_setattr k m cl =
  (Ok tt, {| c_id := c_id cl; c_name := c_name cl; c_bases := c_bases cl;
             c_dict := dict_set k m (c_dict cl) |}).
Proof. reflexivity. Qed.

Lemma class_lookup_setattr (k k' : string) (m : method) (cl : class) :
  class_lookup (snd (class_setattr k m cl)) k' =
  if String.eqb k k' then Some m else class_lookup cl k'.
Proof.
  unfold class_lookup. simpl. rewrite dict_get_set.
  destruct (String.eqb k k'); reflexivity.
Qed.

(** ** [Attribute] *)

Lemma Attribute_init_plain (s : string) (v : value) :
  Attribute_init s v None =
  Ok {| name := s; _default := Some v; _default_factory := None |}.
Proof. unfold Attribute_init. destruct v; reflexivity. Qed.

Lemma _ensure_attributes_ok (attrs : list attr_decl) :
  exists l, _ensure_attributes attrs = Ok l.
Proof.
  induction attrs as [|a attrs [l IH]]; simpl.
  - eauto.
  - destruct a as [s|a]; rewrite ?Attribute_init_plain; run; rewrite IH; eauto.
Qed.

(** C8: [Attribute(name, default_value, default_factory)] raises
    [ValueError] exactly when both a default value (anything but [NOTHING])
    and a default factory (anything but [None]) are passed, so that no
    [Attribute] comes into existence for a decorator to use; with at most
    one of the two it returns an [Attribute] of that name whose [_default]
    is the value passed, the factory's product, or [NOTHING]. *)
Theorem C8_conflicting_default_strategy (s : string) (dv : value)
    (df : option factory) :
  (dv <> NOTHING /\ df <> None <->
   Attribute_init s dv df =
   Raise (ValueError
            "Passing both default_value and default_factory is ambiguous."))
  /\ (dv = NOTHING \/ df = None <->
      exists a, Attribute_init s dv df = Ok a /\ name a = s /\
        get_default a =
          (if negb (is_NOTHING dv) then Ok dv
           else match df with
                | Some f => if factory_truth f then factory_call f tt
                            else Raise (no_attribute "_default")
                | None => Ok NOTHING
                end)).
Proof.
  unfold Attribute_init.
  destruct dv, df as [f|]; simpl; split; split;
    try (intros [? ?]; congruence); try (intros [?|?]; congruence);
    try (intros; split; congruence); try discriminate;
    try (intros; eexists; repeat split; reflexivity);
    try (intros [a [Ha _]]; discriminate);
    try (intros; (left; reflexivity) || (right; reflexivity)).
Qed.

(** ** Comparison and hashing *)

Lemma class_is_false (cl1 cl2 : class) :
  c_id cl1 <> c_id cl2 -> class_is cl1 cl2 = false.
Proof. intros H. unfold class_is. now apply Nat.eqb_neq. Qed.

(** Tuple equality of the attribute values is their pairwise equality. *)
Lemma tuples_of_carried_attributes (attrs : list Attribute) (a b : instance) :
  has_attributes attrs a = true ->
  has_attributes attrs b = true ->
  exists t1 t2,
    with_cmp.attrs_to_tuple attrs a = Ok t1 /\
    with_cmp.attrs_to_tuple attrs b = Ok t2 /\
    tuple_richcompare Py_EQ t1 t2 = Ok (pairwise_equal attrs a b).
Proof.
  induction attrs as [|x attrs IH]; simpl; intros Ha Hb.
  - exists [], []. repeat split.
  - apply andb_true_iff in Ha as [Hxa Ha], Hb as [Hxb Hb].
    apply bool_decide_eq_true in Hxa as [u Hu], Hxb as [v Hv].
    destruct (IH Ha Hb) as (t1 & t2 & H1 & H2 & H12).
    exists (u :: t1), (v :: t2). unfold getattr. rewrite Hu, Hv. run.
    rewrite H1, H2. repeat split.
    destruct (py_eq u v); [exact H12 | reflexivity].
Qed.

(** C3: for instances of exactly the same class that carry the declared
    attributes, the synthesized [eq] returns the pairwise equality of the
    attribute values and [ne] its negation; when the classes differ (a
    subclass included, whatever the attribute values) both return
    [NotImplemented] without raising; and [ne] always passes on an
    [NotImplemented] from [eq] and negates any other outcome. *)
Theorem C3_eq_is_pairwise_and_type_exact (attrs : list Attribute)
    (a b : instance) :
  (class_is (i_class b) (i_class a) = true ->
   has_attributes attrs a = true -> has_attributes attrs b = true ->
   with_cmp.eq attrs a b = Ok (VBool (pairwise_equal attrs a b)) /\
   with_cmp.ne attrs a b = Ok (VBool (negb (pairwise_equal attrs a b))))
  /\ (c_id (i_class b) <> c_id (i_class a) ->
      with_cmp.eq attrs a b = Ok NotImplemented /\
      with_cmp.ne attrs a b = Ok NotImplemented)
  /\ with_cmp.ne attrs a b =
     match with_cmp.eq attrs a b with
     | Ok NotImplemented => Ok NotImplemented
     | Ok v => Ok (py_not v)
     | Raise e => Raise e
     end.
Proof.
  split; [|split].
  - intros Hcl Ha Hb.
    destruct (tuples_of_carried_attributes attrs a b Ha Hb)
      as (t1 & t2 & H1 & H2 & H12).
    assert (He : with_cmp.eq attrs a b = Ok (VBool (pairwise_equal attrs a b))).
    { unfold with_cmp.eq. rewrite Hcl, H1, H2. run. now rewrite H12. }
    split; [exact He|]. unfold with_cmp.ne. rewrite He. reflexivity.
  - intros Hne. apply class_is_false in Hne.
    unfold with_cmp.ne, with_cmp.eq. rewrite Hne. split; reflexivity.
  - unfold with_cmp.ne. destruct (with_cmp.eq attrs a b) as [[]|]; reflexivity.
Qed.

Lemma equal_tuples_hash_alike `{PyHash} (t1 t2 : list value) :
  tuple_richcompare Py_EQ t1 t2 = Ok true -> map py_hash t1 = map py_hash t2.
Proof.
  revert t2. induction t1 as [|x t1 IH]; intros [|y t2] Heq.
  - reflexivity.
  - discriminate Heq.
  - discriminate Heq.
  - cbn [tuple_richcompare] in Heq.
    destruct (py_eq x y) eqn:Exy; [|discriminate].
    cbn [map]. f_equal; [now apply py_hash_eq | now apply IH].
Qed.

(** C4: whenever the synthesized [eq] returns [True] for two instances, the
    synthesized [hash_] returns the same number for both; [hash_] is the
    hash of the tuple of the declared attribute values. *)
Theorem C4_equal_instances_hash_alike `{PyHash} (attrs : list Attribute)
    (a b : instance) :
  with_cmp.eq attrs a b = Ok (VBool true) ->
  (exists h, with_cmp.hash_ attrs a = Ok h /\ with_cmp.hash_ attrs b = Ok h)
  /\ (forall t, with_cmp.attrs_to_tuple attrs a = Ok t ->
                with_cmp.hash_ attrs a = Ok (hash_tuple t)).
Proof.
  intros Heq. split.
  - unfold with_cmp.eq in Heq. unfold with_cmp.hash_.
    destruct (class_is _ _); [|discriminate].
    destruct (with_cmp.attrs_to_tuple attrs a) as [t1|]; [|discriminate].
    destruct (with_cmp.attrs_to_tuple attrs b) as [t2|]; [|discriminate].
    run. destruct (tuple_richcompare Py_EQ t1 t2) as [[]|] eqn:E;
      try discriminate.
    exists (hash_tuple t1). split; [reflexivity|].
    unfold hash_tuple. now rewrite (equal_tuples_hash_alike t1 t2 E).
  - intros t Ht. unfold with_cmp.hash_. now rewrite Ht.
Qed.

Lemma tuple_of_point (cl : class) (x y : Z) :
  with_cmp.attrs_to_tuple Examples.xy (Examples.point cl x y)
  = Ok [VInt x; VInt y].
Proof. reflexivity. Qed.

Lemma compare_pairs (op : cmpop) (x1 y1 x2 y2 : Z) :
  tuple_richcompare op [VInt x1; VInt y1] [VInt x2; VInt y2] =
  Ok (if x1 =? x2 then (if y1 =? y2 then cmp_Z op 0 0 else cmp_Z op y1 y2)
      else cmp_Z op x1 x2).
Proof.
  cbn [tuple_richcompare length]. unfold py_eq, py_richcompare, cmp_size.
  cbn [as_int]. unfold py_eq. cbn [as_int].
  destruct (x1 =? x2) eqn:Ex, (y1 =? y2) eqn:Ey, op; cbn [cmp_Z];
    rewrite ?Ex, ?Ey; reflexivity.
Qed.

(** C7: on a record type whose attributes are [x] then [y], the four
    synthesized ordering operators compare lexicographically with [x]
    first, for all integer values; in particular [(1, 2) < (1, 3)] is true
    and [(2, 0) < (1, 9)] is false; and every one of them returns
    [NotImplemented] when the two classes are not the same class. *)
Theorem C7_ordering_is_lexicographic :
  _ensure_attributes [Name "x"; Name "y"] = Ok Examples.xy
  /\ (forall cl x1 y1 x2 y2,
        let a := Examples.point cl x1 y1 in
        let b := Examples.point cl x2 y2 in
        with_cmp.lt Examples.xy a b
          = Ok (VBool ((x1 <? x2) || (x1 =? x2) && (y1 <? y2)))
        /\ with_cmp.le Examples.xy a b
          = Ok (VBool ((x1 <? x2) || (x1 =? x2) && (y1 <=? y2)))
        /\ with_cmp.gt Examples.xy a b
          = Ok (VBool ((x2 <? x1) || (x1 =? x2) && (y2 <? y1)))
        /\ with_cmp.ge Examples.xy a b
          = Ok (VBool ((x2 <? x1) || (x1 =? x2) && (y2 <=? y1))))
  /\ (forall cl,
        with_cmp.lt Examples.xy (Examples.point cl 1 2) (Examples.point cl 1 3)
          = Ok (VBool true)
        /\ with_cmp.lt Examples.xy (Examples.point cl 2 0)
             (Examples.point cl 1 9)
          = Ok (VBool false))
  /\ (forall attrs a b,
        c_id (i_class b) <> c_id (i_class a) ->
        with_cmp.lt attrs a b = Ok NotImplemented
        /\ with_cmp.le attrs a b = Ok NotImplemented
        /\ with_cmp.gt attrs a b = Ok NotImplemented
        /\ with_cmp.ge attrs a b = Ok NotImplemented).
Proof.
  split; [reflexivity|]. split; [|split].
  - intros cl x1 y1 x2 y2 a b.
    unfold with_cmp.lt, with_cmp.le, with_cmp.gt, with_cmp.ge, class_is.
    subst a b. rewrite !tuple_of_point.
    change (i_class (Examples.point cl x2 y2)) with cl.
    change (i_class (Examples.point cl x1 y1)) with cl.
    rewrite Nat.eqb_refl. unfold_monad. cbv beta iota.
    rewrite !compare_pairs. unfold cmp_Z.
    repeat split; do 2 f_equal;
      destruct (x1 =? x2) eqn:Ex, (y1 =? y2) eqn:Ey;
      rewrite ?Z.eqb_eq, ?Z.eqb_neq in *; subst; simpl;
      rewrite ?Z.ltb_irrefl, ?Z.leb_refl, ?orb_false_r, ?orb_true_r;
      try reflexivity;
      try (symmetry; apply Z.ltb_ge; lia);
      try (symmetry; apply Z.ltb_lt; lia);
      lia.
  - intros cl. unfold with_cmp.lt, class_is.
    rewrite !tuple_of_point.
    change (i_class (Examples.point cl 1 3)) with cl.
    change (i_class (Examples.point cl 1 2)) with cl.
    change (i_class (Examples.point cl 1 9)) with cl.
    change (i_class (Examples.point cl 2 0)) with cl.
    rewrite Nat.eqb_refl. split; reflexivity.
  - intros attrs a b Hne. apply class_is_false in Hne.
    unfold with_cmp.lt, with_cmp.le, with_cmp.gt, with_cmp.ge.
    rewrite Hne. repeat split.
Qed.

(** ** Composition *)

Lemma class_has_setattr (cl : class) :
  exists m, class_lookup cl "__setattr__" = Some m.
Proof. unfold class_lookup. destruct (dict_get _ _); simpl; eauto. Qed.

Lemma class_has_init (cl : class) :
  exists m, class_lookup cl "__init__" = Some m.
Proof. unfold class_lookup. destruct (dict_get _ _); simpl; eauto. Qed.

Lemma class_getattr_run (cl : class) (attr : string) (m : method) :
  class_lookup cl attr = Some m -> class_getattr attr cl = (Ok m, cl).
Proof. intros H. unfold class_getattr. now rewrite H. Qed.

Lemma immutable_wrap_run (prot : gset string) (cl : class) (m : method) :
  class_lookup cl "__setattr__" = Some m ->
  immutable.wrap prot cl =
  (Ok tt, snd (class_setattr "__setattr__" (sentry_closure prot)
                 (snd (class_setattr "__original_setattr__" m cl)))).
Proof.
  intros H. unfold immutable.wrap. unfold_monad.
  rewrite (class_getattr_run _ _ _ H). reflexivity.
Qed.

Lemma with_init_wrap_run (attrs : list Attribute) (cl : class)
    (init current : method) :
  class_lookup cl "__init__" = Some init ->
  class_lookup cl "__setattr__" = Some current ->
  with_init.wrap attrs cl =
  (Ok tt,
   snd (class_setattr "__characteristic_setattr__"
          (default current (class_lookup cl "__original_setattr__"))
          (snd (class_setattr "__init__" (characteristic_init_closure attrs)
                  (snd (class_setattr "__original_init__" init cl)))))).
Proof.
  intros Hi Hs. unfold with_init.wrap. unfold_monad.
  rewrite (class_getattr_run _ _ _ Hi).
  rewrite !class_setattr_run. cbv beta iota.
  set (cl2 := {| c_id := _; c_dict := dict_set "__init__" _ _ |}).
  assert (H2 : forall k, k <> "__init__" -> k <> "__original_init__" ->
                         class_lookup cl2 k = class_lookup cl k).
  { intros k H1 H0. unfold class_lookup, cl2. cbn [c_dict].
    rewrite !dict_get_set.
    destruct (String.eqb_spec "__init__" k); [congruence|].
    destruct (String.eqb_spec "__original_init__" k); [congruence|].
    reflexivity. }
  rewrite (class_getattr_run cl2 _ current)
    by (rewrite H2; [exact Hs | discriminate | discriminate]).
  rewrite H2 by discriminate. reflexivity.
Qed.

Lemma run_ok {S} (m : M S unit) (s : S) :
  fst (m s) = Ok tt -> m s = (Ok tt, snd (m s)).
Proof. destruct (m s) as [r s']. simpl. now intros ->. Qed.

Lemma bind_run {S A B} (m : M S A) (f : A -> M S B) (s : S) (a : A)
    (s' : S) :
  m s = (Ok a, s') -> (m ≫= f) s = f a s'.
Proof. intros H. unfold mbind, M_bind. now rewrite H. Qed.

Lemma immutable_wrap_ok (prot : gset string) (cl : class) :
  fst (immutable.wrap prot cl) = Ok tt.
Proof.
  destruct (class_has_setattr cl) as [m Hm].
  now rewrite (immutable_wrap_run _ _ _ Hm).
Qed.

Lemma with_init_wrap_ok (attrs : list Attribute) (cl : class) :
  fst (with_init.wrap attrs cl) = Ok tt.
Proof.
  destruct (class_has_setattr cl) as [m Hm], (class_has_init cl) as [i Hi].
  now rewrite (with_init_wrap_run _ _ _ _ Hi Hm).
Qed.

(** What the decorator made by [attributes] does to [cl0], case by case. *)
Lemma attributes_wrap_run (attrs : list attr_decl)
    (defaults : option (gmap string value)) (create_init make_immutable : bool)
    (cl0 : class) (l : list Attribute) :
  _ensure_attributes attrs = Ok l ->
  attributes.wrap attrs defaults create_init make_immutable cl0 =
  let cl2 := before_initializer l make_immutable cl0 in
  if create_init then
    match with_init.new_attrs attrs (default ∅ defaults) with
    | Ok l' => (Ok tt, snd (with_init.wrap l' cl2))
    | Raise e => (Raise e, cl2)
    end
  else (Ok tt, cl2).
Proof.
  intros Hl. unfold attributes.wrap, before_initializer.
  unfold with_cmp.decorator, with_repr.decorator, immutable.decorator,
    immutable.protected, with_init.decorator.
  rewrite Hl. unfold_monad. cbv beta iota.
  unfold with_repr.wrap at 1. rewrite class_setattr_run.
  set (cl1 := {| c_id := _; c_dict := dict_set "__repr__" _ _ |}).
  change (snd (with_repr.wrap l cl0)) with cl1.
  assert (Hc : with_cmp.wrap l cl1 = (Ok tt, snd (with_cmp.wrap l cl1)))
    by reflexivity.
  rewrite Hc. set (cl1' := snd (with_cmp.wrap l cl1)).
  destruct make_immutable.
  - rewrite (run_ok _ _ (immutable_wrap_ok (list_to_set (map name l)) cl1')).
    set (cl2 := snd (immutable.wrap _ cl1')).
    destruct create_init; [|reflexivity].
    destruct (with_init.new_attrs _ _) as [l'|e]; [|reflexivity].
    now rewrite (run_ok _ _ (with_init_wrap_ok l' cl2)).
  - cbv beta iota. destruct create_init; [|reflexivity].
    destruct (with_init.new_attrs _ _) as [l'|e]; [|reflexivity].
    now rewrite (run_ok _ _ (with_init_wrap_ok l' cl1')).
Qed.

Lemma with_repr_wrap_run (l : list Attribute) (cl : class) :
  with_repr.wrap l cl =
  (Ok tt, {| c_id := c_id cl; c_name := c_name cl; c_bases := c_bases cl;
             c_dict := dict_set "__repr__" (repr_closure l) (c_dict cl) |}).
Proof. reflexivity. Qed.

Lemma with_cmp_wrap_run (l : list Attribute) (cl : class) :
  with_cmp.wrap l cl =
  (Ok tt,
   {| c_id := c_id cl; c_name := c_name cl; c_bases := c_bases cl;
      c_dict :=
        dict_set "__hash__" (hash_closure l)
          (dict_set "__ge__" (ge_closure l)
             (dict_set "__gt__" (gt_closure l)
                (dict_set "__le__" (le_closure l)
                   (dict_set "__lt__" (lt_closure l)
                      (dict_set "__ne__" (ne_closure l)
                         (dict_set "__eq__" (eq_closure l)
                            (c_dict cl))))))) |}).
Proof. reflexivity. Qed.

(** The namespace after representation and comparison are attached. *)
Lemma with_repr_cmp_lookup (l : list Attribute) (cl0 : class) (k : string) :
  class_lookup (snd (with_cmp.wrap l (snd (with_repr.wrap l cl0)))) k =
  if String.eqb "__hash__" k then Some (hash_closure l)
  else if String.eqb "__ge__" k then Some (ge_closure l)
  else if String.eqb "__gt__" k then Some (gt_closure l)
  else if String.eqb "__le__" k then Some (le_closure l)
  else if String.eqb "__lt__" k then Some (lt_closure l)
  else if String.eqb "__ne__" k then Some (ne_closure l)
  else if String.eqb "__eq__" k then Some (eq_closure l)
  else if String.eqb "__repr__" k then Some (repr_closure l)
  else class_lookup cl0 k.
Proof.
  rewrite with_repr_wrap_run. cbn [snd]. rewrite with_cmp_wrap_run.
  unfold class_lookup. cbn [snd c_dict]. rewrite !dict_get_set.
  repeat match goal with
  | |- context [String.eqb ?a k] => destruct (String.eqb a k); [reflexivity|]
  end.
  reflexivity.
Qed.

Lemma with_repr_cmp_keeps (l : list Attribute) (cl0 : class) (k : string) :
  Forall (fun k' => k' <> k)
    ["__repr__"; "__eq__"; "__ne__"; "__lt__"; "__le__"; "__gt__"; "__ge__";
     "__hash__"] ->
  class_lookup (snd (with_cmp.wrap l (snd (with_repr.wrap l cl0)))) k
  = class_lookup cl0 k.
Proof.
  intros H. rewrite with_repr_cmp_lookup.
  repeat match goal with
  | H : Forall _ (_ :: _) |- _ => inversion H; subst; clear H
  end.
  repeat match goal with
  | |- context [String.eqb ?a k] =>
      destruct (String.eqb_spec a k); [congruence|]
  end.
  reflexivity.
Qed.

Ltac distinct_keys := repeat constructor; discriminate.

Lemma guard_lookups (l : list Attribute) (cl0 : class) :
  let cl := before_initializer l true cl0 in
  class_lookup cl "__setattr__"
    = Some (sentry_closure (list_to_set (map name l)))
  /\ class_lookup cl "__original_setattr__" = class_lookup cl0 "__setattr__"
  /\ class_lookup cl "__init__" = class_lookup cl0 "__init__"
  /\ c_name cl = c_name cl0 /\ c_id cl = c_id cl0.
Proof.
  unfold before_initializer.
  set (cl1 := snd (with_cmp.wrap l (snd (with_repr.wrap l cl0)))).
  assert (Hs : class_lookup cl1 "__setattr__" = class_lookup cl0 "__setattr__")
    by (apply with_repr_cmp_keeps; distinct_keys).
  assert (Hi : class_lookup cl1 "__init__" = class_lookup cl0 "__init__")
    by (apply with_repr_cmp_keeps; distinct_keys).
  destruct (class_has_setattr cl1) as [m Hm].
  rewrite (immutable_wrap_run _ _ _ Hm). cbn [snd].
  rewrite !class_lookup_setattr. cbn [String.eqb Ascii.eqb Bool.eqb].
  rewrite <- Hs, Hm, Hi. repeat split.
Qed.

Lemma init_lookups (l' : list Attribute) (cl2 : class) :
  let cl := snd (with_init.wrap l' cl2) in
  class_lookup cl "__init__" = Some (characteristic_init_closure l')
  /\ class_lookup cl "__original_init__" = class_lookup cl2 "__init__"
  /\ class_lookup cl "__characteristic_setattr__"
     = match class_lookup cl2 "__original_setattr__" with
       | Some m => Some m
       | None => class_lookup cl2 "__setattr__"
       end
  /\ class_lookup cl "__setattr__" = class_lookup cl2 "__setattr__"
  /\ class_lookup cl "__original_setattr__"
     = class_lookup cl2 "__original_setattr__"
  /\ c_name cl = c_name cl2 /\ c_id cl = c_id cl2.
Proof.
  destruct (class_has_setattr cl2) as [m Hm], (class_has_init cl2) as [i Hi].
  rewrite (with_init_wrap_run _ _ _ _ Hi Hm). cbn [snd].
  rewrite !class_lookup_setattr. cbn [String.eqb Ascii.eqb Bool.eqb].
  rewrite Hi, Hm.
  destruct (class_lookup cl2 "__original_setattr__"); repeat split.
Qed.

(** C5, as stated, fails twice.  On the order of the first two steps: on
    the plain class [Point] the decorator attaches [__repr__] before the
    comparison methods, so the class it leaves differs from the one
    obtained by attaching comparison first.  On the write path without a
    guard of its own: for a class that already carries an
    [__original_setattr__], the initializer is bound to it and not to the
    class's ordinary [__setattr__]. *)
Lemma C5_counterexample_repr_before_cmp :
  map fst (c_dict Examples.Point) =
    ["__repr__"; "__eq__"; "__ne__"; "__lt__"; "__le__"; "__gt__"; "__ge__";
     "__hash__"; "__original_setattr__"; "__setattr__";
     "__original_init__"; "__init__"; "__characteristic_setattr__"]
  /\ Examples.Point <>
     snd (compose_in_specified_order Examples.xy
            (list_to_set (map name Examples.xy)) Examples.xy true true
            (Examples.plain 1 "Point"))
  /\ class_lookup Examples.Guarded "__setattr__"
     = Some (sentry_closure {[ "y" ]})
  /\ class_lookup Examples.GuardedThenInit "__setattr__"
     = Some (sentry_closure {[ "y" ]})
  /\ class_lookup Examples.GuardedThenInit "__characteristic_setattr__"
     = Some object_setattr.
Proof.
  split; [reflexivity|]. split; [|repeat split; vm_compute; reflexivity].
  intros H. apply (f_equal (fun c => map fst (c_dict c))) in H.
  vm_compute in H. discriminate H.
Qed.

(** C5 (amended): [attributes] attaches the representation, then the
    comparison methods, then (if [make_immutable]) the sentry, then (if
    [create_init]) the initializer, and always succeeds once the attribute
    list is accepted.  The sentry keeps the class's previous [__setattr__]
    as [__original_setattr__]; the initializer writes through
    [__characteristic_setattr__], which is that previous [__setattr__] when
    the sentry was installed, and otherwise an [__original_setattr__] the
    class already had or else its ordinary [__setattr__]: the initializer's
    writes call that primitive directly. *)
Theorem C5_composition_order_and_write_path (attrs : list attr_decl)
    (defaults : option (gmap string value)) (create_init make_immutable : bool)
    (cl0 : class) (l l' : list Attribute) :
  _ensure_attributes attrs = Ok l ->
  with_init.new_attrs attrs (default ∅ defaults) = Ok l' ->
  let protected := list_to_set (map name l) in
  let cl := snd (attributes.wrap attrs defaults create_init make_immutable cl0)
  in
  attributes.wrap attrs defaults create_init make_immutable cl0 =
    (_ ← with_repr.wrap l;
     _ ← with_cmp.wrap l;
     _ ← (if make_immutable then immutable.wrap protected else mret tt);
     if create_init then with_init.wrap l' else mret tt) cl0
  /\ fst (attributes.wrap attrs defaults create_init make_immutable cl0)
     = Ok tt
  /\ (c_dict cl0 = [] ->
      map fst (c_dict cl) =
        (["__repr__"; "__eq__"; "__ne__"; "__lt__"; "__le__"; "__gt__";
          "__ge__"; "__hash__"]
         ++ (if make_immutable then ["__original_setattr__"; "__setattr__"]
             else [])
         ++ (if create_init
             then ["__original_init__"; "__init__";
                   "__characteristic_setattr__"]
             else []))%list)
  /\ (make_immutable = true ->
      class_lookup cl "__setattr__" = Some (sentry_closure protected)
      /\ class_lookup cl "__original_setattr__"
         = class_lookup cl0 "__setattr__")
  /\ (create_init = true ->
      class_lookup cl "__init__" = Some (characteristic_init_closure l')
      /\ class_lookup cl "__original_init__" = class_lookup cl0 "__init__"
      /\ class_lookup cl "__characteristic_setattr__" =
         (if make_immutable then class_lookup cl0 "__setattr__"
          else match class_lookup cl0 "__original_setattr__" with
               | Some m => Some m
               | None => class_lookup cl0 "__setattr__"
               end)
      /\ forall call here attr v self m,
           i_class self = cl ->
           class_lookup cl "__characteristic_setattr__" = Some m ->
           call_attribute call "__characteristic_setattr__" here
             [VStr attr; v] ∅ self
           = call m (Some here) [VStr attr; v] ∅ self).
Proof.
  intros Hl Hl' protected cl.
  pose proof (attributes_wrap_run attrs defaults create_init make_immutable
                cl0 l Hl) as Hrun.
  rewrite Hl' in Hrun. cbv zeta in Hrun.
  assert (Hcl : cl = if create_init
                     then snd (with_init.wrap l'
                                 (before_initializer l make_immutable cl0))
                     else before_initializer l make_immutable cl0).
  { unfold cl. rewrite Hrun. now destruct create_init. }
  split; [|split; [|split; [|split]]].
  - rewrite Hrun. unfold before_initializer.
    set (cl1 := snd (with_cmp.wrap l (snd (with_repr.wrap l cl0)))).
    rewrite (bind_run _ _ cl0 tt (snd (with_repr.wrap l cl0)))
      by reflexivity.
    rewrite (bind_run _ _ _ tt cl1) by reflexivity.
    destruct make_immutable.
    + rewrite (bind_run _ _ cl1 tt _
                 (run_ok _ _ (immutable_wrap_ok protected cl1))).
      destruct create_init; [|reflexivity].
      symmetry. apply run_ok, with_init_wrap_ok.
    + rewrite (bind_run _ _ cl1 tt cl1) by reflexivity.
      destruct create_init; [|reflexivity].
      symmetry. apply run_ok, with_init_wrap_ok.
  - rewrite Hrun. now destruct create_init.
  - intros Hempty. rewrite Hcl.
    destruct cl0 as [i n b d]. simpl in Hempty. subst d.
    destruct create_init, make_immutable; reflexivity.
  - intros ->. rewrite Hcl.
    destruct (guard_lookups l cl0) as (H1 & H2 & _).
    destruct create_init; [|now split].
    destruct (init_lookups l' (before_initializer l true cl0))
      as (_ & _ & _ & H4 & H5 & _).
    rewrite H4, H5. now split.
  - intros ->. rewrite Hcl.
    destruct (init_lookups l' (before_initializer l make_immutable cl0))
      as (H1 & H2 & H3 & _).
    split; [exact H1|]. split; [|split].
    + rewrite H2. destruct make_immutable.
      * apply guard_lookups.
      * unfold before_initializer. apply with_repr_cmp_keeps. distinct_keys.
    + rewrite H3. destruct make_immutable.
      * destruct (guard_lookups l cl0) as (_ & H5 & _). rewrite H5.
        destruct (class_has_setattr cl0) as [m ->]. reflexivity.
      * unfold before_initializer.
        rewrite !with_repr_cmp_keeps by distinct_keys. reflexivity.
    + intros call here attr v self m Hself Hm.
      unfold call_attribute. now rewrite Hself, Hm.
Qed.

Lemma new_attrs_mixing (attrs : list attr_decl) (defaults : gmap string value) :
  defaults <> ∅ ->
  existsb isinstance_Attribute attrs = true ->
  with_init.new_attrs attrs defaults
  = Raise (ValueError with_init.mixing_message).
Proof.
  intros Hd. induction attrs as [|a attrs IH]; [discriminate|].
  cbn [existsb with_init.new_attrs]. destruct a as [s|a]; cbn [isinstance_Attribute].
  - intros H. rewrite orb_false_l in H.
    rewrite !Attribute_init_plain.
    destruct (truthy _); unfold_monad; cbv beta iota; rewrite (IH H);
      reflexivity.
  - intros _. now rewrite bool_decide_eq_true_2.
Qed.

(** C6, as stated, fails under [attributes]: the conflict between the
    [defaults] mapping and an [Attribute] with a default is reported only
    after the class has received its representation, its comparison
    methods and the sentry.  It is not reported at all when [create_init]
    is false, nor when the mapping is empty. *)
Lemma C6_counterexample_class_already_mutated :
  let x1 := {| name := "x"; _default := Some (VInt 1);
               _default_factory := None |} in
  let cl0 := Examples.plain 5 "Conflict" in
  let run := attributes.wrap [Attr x1] (Some {[ "y" := VInt 2 ]}) true true cl0
  in
  Attribute_init "x" (VInt 1) None = Ok x1
  /\ fst run = Raise (ValueError with_init.mixing_message)
  /\ map fst (c_dict (snd run)) =
       ["__repr__"; "__eq__"; "__ne__"; "__lt__"; "__le__"; "__gt__";
        "__ge__"; "__hash__"; "__original_setattr__"; "__setattr__"]
  /\ snd run <> cl0
  /\ fst (attributes.wrap [Attr x1] (Some {[ "y" := VInt 2 ]}) false true cl0)
     = Ok tt
  /\ is_ok (with_init.decorator [Attr x1] (Some ∅)) = true.
Proof.
  cbv zeta. split; [reflexivity|]. split; [vm_compute; reflexivity|].
  split; [vm_compute; reflexivity|]. split; [|split; vm_compute; reflexivity].
  intros H. apply (f_equal (fun c => map fst (c_dict c))) in H.
  vm_compute in H. discriminate H.
Qed.

(** C6 (amended): combining a non-empty [defaults] mapping with any
    [Attribute] instance among [attrs] (with or without a default of its
    own) makes [with_init(attrs, defaults)] raise [ValueError] before it
    returns a decorator, hence before [with_init] touches a class.  Under
    [attributes] the error is raised only when [create_init] is true, and
    then after the representation, the comparison methods and (if
    [make_immutable]) the sentry have been attached; with
    [create_init = False] there is no error at all. *)
Theorem C6_mixing_defaults_and_Attribute (attrs : list attr_decl)
    (defaults : gmap string value) :
  defaults <> ∅ ->
  existsb isinstance_Attribute attrs = true ->
  with_init.decorator attrs (Some defaults)
    = Raise (ValueError with_init.mixing_message)
  /\ forall make_immutable cl0 l,
       _ensure_attributes attrs = Ok l ->
       let cl2 := before_initializer l make_immutable cl0 in
       attributes.wrap attrs (Some defaults) true make_immutable cl0
         = (Raise (ValueError with_init.mixing_message), cl2)
       /\ attributes.wrap attrs (Some defaults) false make_immutable cl0
         = (Ok tt, cl2)
       /\ class_lookup cl2 "__repr__" = Some (repr_closure l)
       /\ class_lookup cl2 "__eq__" = Some (eq_closure l)
       /\ (make_immutable = true ->
           class_lookup cl2 "__setattr__"
           = Some (sentry_closure (list_to_set (map name l)))).
Proof.
  intros Hd Hx. pose proof (new_attrs_mixing attrs defaults Hd Hx) as Hn.
  split.
  - unfold with_init.decorator.
    change (default ∅ (Some defaults)) with defaults. now rewrite Hn.
  - intros mi cl0 l Hl cl2.
    rewrite !(attributes_wrap_run _ _ _ _ _ _ Hl).
    change (default ∅ (Some defaults)) with defaults.
    rewrite Hn. fold cl2.
    assert (Hkeep : forall k, k <> "__original_setattr__" ->
                              k <> "__setattr__" ->
              class_lookup cl2 k =
              class_lookup
                (snd (with_cmp.wrap l (snd (with_repr.wrap l cl0)))) k).
    { intros k H1 H2. unfold cl2, before_initializer.
      destruct mi; [|reflexivity].
      destruct (class_has_setattr
                  (snd (with_cmp.wrap l (snd (with_repr.wrap l cl0)))))
        as [m Hm].
      rewrite (immutable_wrap_run _ _ _ Hm). cbn [snd].
      rewrite !class_lookup_setattr.
      destruct (String.eqb_spec "__setattr__" k); [congruence|].
      destruct (String.eqb_spec "__original_setattr__" k); [congruence|].
      reflexivity. }
    repeat split.
    + rewrite Hkeep by discriminate. now rewrite with_repr_cmp_lookup.
    + rewrite Hkeep by discriminate. now rewrite with_repr_cmp_lookup.
    + intros ->. apply guard_lookups.
Qed.

(** ** The immutability sentry *)

Lemma recursion_limit_S : recursion_limit = S (Nat.pred recursion_limit).
Proof. reflexivity. Qed.

Lemma call_object_setattr (d : nat) (f_back : option frame) (attr : string)
    (v : value) (self : instance) :
  call_method (S d) object_setattr f_back [VStr attr; v] ∅ self
  = (Ok tt, store attr v self).
Proof. reflexivity. Qed.

Lemma call_sentry (d : nat) (prot : gset string) (f_back : option frame)
    (attr v : value) (self : instance) :
  call_method (S d) (sentry_closure prot) f_back [attr; v] ∅ self
  = immutable.characteristic_immutability_sentry (call_method d) prot f_back
      attr v self.
Proof. reflexivity. Qed.

Lemma assign_through_sentry (prot : gset string) (here : frame)
    (attr : string) (v : value) (self : instance) :
  class_lookup (i_class self) "__setattr__" = Some (sentry_closure prot) ->
  assign here attr v self
  = immutable.characteristic_immutability_sentry
      (call_method (Nat.pred recursion_limit)) prot (Some here) (VStr attr) v
      self.
Proof.
  intros H. unfold assign, call_attribute. rewrite H.
  rewrite recursion_limit_S at 1. apply call_sentry.
Qed.

(** The sentry lets the write through: it goes to [__original_setattr__]. *)
Lemma sentry_forwards (call : caller) (prot : gset string)
    (f_back : option frame) (attr v : value) (self : instance) :
  immutable.not_in attr prot = true
  \/ (exists fr, f_back = Some fr /\ co_name fr ∈ _VALID_INITS) ->
  immutable.characteristic_immutability_sentry call prot f_back attr v self
  = call_attribute call "__original_setattr__"
      {| co_name := "characteristic_immutability_sentry";
         f_owner := Some (c_id (i_class self)) |}
      [attr; v] ∅ self.
Proof.
  intros H. unfold immutable.characteristic_immutability_sentry.
  destruct H as [-> | (fr & -> & Hfr)]; [reflexivity|].
  rewrite (bool_decide_eq_true_2 _ Hfr), orb_true_r. reflexivity.
Qed.

Lemma sentry_forwards_to_object (prot : gset string) (here : frame)
    (attr : string) (v : value) (self : instance) :
  class_lookup (i_class self) "__setattr__" = Some (sentry_closure prot) ->
  class_lookup (i_class self) "__original_setattr__" = Some object_setattr ->
  attr ∉ prot \/ co_name here ∈ _VALID_INITS ->
  assign here attr v self = (Ok tt, store attr v self).
Proof.
  intros Hs Ho H. rewrite (assign_through_sentry _ _ _ _ _ Hs).
  rewrite sentry_forwards.
  - unfold call_attribute. rewrite Ho. reflexivity.
  - destruct H as [H|H].
    + left. cbn [immutable.not_in]. now apply bool_decide_eq_true_2.
    + right. eauto.
Qed.

Lemma sentry_rejects (prot : gset string) (here : frame) (attr : string)
    (v : value) (self : instance) :
  class_lookup (i_class self) "__setattr__" = Some (sentry_closure prot) ->
  attr ∈ prot -> co_name here ∉ _VALID_INITS ->
  assign here attr v self
  = (Raise (TypeError ("Attribute '" +:+ attr +:+ "' of class '"
                       +:+ c_name (i_class self) +:+ "' is immutable.")),
     self).
Proof.
  intros Hs Hin Hout. rewrite (assign_through_sentry _ _ _ _ _ Hs).
  unfold immutable.characteristic_immutability_sentry.
  cbn [immutable.not_in].
  rewrite (bool_decide_eq_false_2 (attr ∉ prot)) by (intros Hn; now apply Hn).
  rewrite (bool_decide_eq_false_2 _ Hout). reflexivity.
Qed.

(** The classes that [immutable], alone or through [attributes], leaves
    behind. *)
Lemma immutable_class_lookups (attrs : list attr_decl)
    (defaults : option (gmap string value)) (create_init : bool)
    (cl0 cl : class) (prot : gset string) :
  immutable.protected attrs = Ok prot ->
  attributes.wrap attrs defaults create_init true cl0 = (Ok tt, cl)
  \/ immutable.wrap prot cl0 = (Ok tt, cl) ->
  class_lookup cl "__setattr__" = Some (sentry_closure prot)
  /\ class_lookup cl "__original_setattr__" = class_lookup cl0 "__setattr__"
  /\ c_name cl = c_name cl0.
Proof.
  intros Hp [H|H].
  - destruct (_ensure_attributes_ok attrs) as [l Hl].
    unfold immutable.protected in Hp. rewrite Hl in Hp.
    injection Hp as <-.
    rewrite (attributes_wrap_run _ _ _ _ _ _ Hl) in H. cbv zeta in H.
    destruct (guard_lookups l cl0) as (H1 & H2 & _ & H4 & _).
    destruct create_init.
    + destruct (with_init.new_attrs _ _) as [l'|e]; [|discriminate].
      assert (Hcl : cl = snd (with_init.wrap l'
                                (before_initializer l true cl0)))
        by congruence.
      subst cl.
      destruct (init_lookups l' (before_initializer l true cl0))
        as (_ & _ & _ & H5 & H6 & H7 & _).
      rewrite H5, H6, H7. auto.
    + assert (Hcl : cl = before_initializer l true cl0) by congruence.
      subst cl. auto.
  - destruct (class_has_setattr cl0) as [m Hm].
    rewrite (immutable_wrap_run _ _ _ Hm) in H.
    assert (Hcl : cl = snd (class_setattr "__setattr__" (sentry_closure prot)
                     (snd (class_setattr "__original_setattr__" m cl0))))
      by congruence.
    subst cl. rewrite !class_lookup_setattr.
    cbn [String.eqb Ascii.eqb Bool.eqb]. rewrite Hm. auto.
Qed.

(** C1, as stated, fails: after [Point(x=1, y=2)] has been constructed, the
    [__init__] of another class, which is not an initializer of [Point],
    assigns the protected attribute [x] and no exception is raised.  And an
    assignment outside the protected set fares as the class's previous
    [__setattr__] decides: on [Frozen] it raises. *)
Lemma C1_counterexample_foreign_init_assigns :
  let kw : gmap string value := <["x" := VInt 1]> (<["y" := VInt 2]> ∅) in
  let self := Examples.point Examples.Point 1 2 in
  let frozen := {| i_class := Examples.Frozen; i_dict := ∅ |} in
  construct Examples.Point Examples.module_level [] kw = Ok self
  /\ immutable.protected [Name "x"; Name "y"] = Ok {[ "x"; "y" ]}
  /\ ~ in_constructor Examples.Point Examples.foreign_init
  /\ assign Examples.foreign_init "x" (VInt 5) self
     = (Ok tt, store "x" (VInt 5) self)
  /\ assign Examples.module_level "z" (VInt 5) frozen
     = (Raise (UserError "frozen"), frozen).
Proof.
  cbv zeta. split; [vm_compute; reflexivity|].
  split; [vm_compute; reflexivity|]. split; [|split].
  - intros [H _]. vm_compute in H. discriminate H.
  - vm_compute. reflexivity.
  - vm_compute. reflexivity.
Qed.

(** C1 (amended): on a class made immutable by [attributes] or by
    [immutable], assigning a protected attribute raises [TypeError], with a
    message naming the attribute and the class, whenever the code name of
    the assigning frame is neither [characteristic_init] nor [__init__];
    assigning a name outside the protected set is never refused by the
    sentry: whatever [__setattr__] the class had before it was made
    immutable, the assignment is the call of that method, made from the
    sentry's frame with the same name and value, and has that call's
    outcome; it is stored when that method was [object]'s. *)
Theorem C1_sentry_rejects_other_callers (attrs : list attr_decl)
    (defaults : option (gmap string value)) (create_init : bool)
    (cl0 cl : class) (prot : gset string) (self : instance) (here : frame)
    (attr : string) (v : value) :
  immutable.protected attrs = Ok prot ->
  attributes.wrap attrs defaults create_init true cl0 = (Ok tt, cl)
  \/ immutable.wrap prot cl0 = (Ok tt, cl) ->
  i_class self = cl ->
  (attr ∈ prot -> co_name here ∉ _VALID_INITS ->
   let msg := "Attribute '" +:+ attr +:+ "' of class '" +:+ c_name cl
              +:+ "' is immutable." in
   assign here attr v self = (Raise (TypeError msg), self)
   /\ contains attr msg = true /\ contains (c_name cl) msg = true)
  /\ (attr ∉ prot ->
      exists previous,
        class_lookup cl0 "__setattr__" = Some previous
        /\ class_lookup cl "__original_setattr__" = Some previous
        /\ assign here attr v self
           = call_method (Nat.pred recursion_limit) previous
               (Some {| co_name := "characteristic_immutability_sentry";
                        f_owner := Some (c_id cl) |})
               [VStr attr; v] ∅ self)
  /\ (attr ∉ prot ->
      class_lookup cl0 "__setattr__" = Some object_setattr ->
      assign here attr v self = (Ok tt, store attr v self)).
Proof.
  intros Hp Hc Hself.
  destruct (immutable_class_lookups _ _ _ _ _ _ Hp Hc) as (Hs & Ho & Hn).
  subst cl. split; [|split].
  - intros Hin Hout msg. split; [|split].
    + now apply (sentry_rejects prot).
    + apply (contains_app "Attribute '").
    + unfold msg.
      rewrite (append_assoc attr), (append_assoc "Attribute '").
      apply contains_app.
  - intros Hout. destruct (class_has_setattr cl0) as [previous Hprev].
    exists previous. rewrite Ho. split; [exact Hprev|]. split; [exact Hprev|].
    rewrite (assign_through_sentry _ _ _ _ _ Hs).
    rewrite sentry_forwards
      by (left; cbn [immutable.not_in]; now apply bool_decide_eq_true_2).
    unfold call_attribute. rewrite Ho, Hprev. reflexivity.
  - intros Hout Hobj. apply (sentry_forwards_to_object prot); auto.
    now rewrite Ho.
Qed.

(** C10: the sentry lets a write to any attribute, protected or not, go
    through to [__original_setattr__] whenever the code name of the calling
    frame is [characteristic_init] or [__init__], whatever function or
    class that frame belongs to; on a class whose previous [__setattr__]
    was [object]'s the value is stored and nothing is raised. *)
Theorem C10_initializer_names_pass_the_sentry (call : caller)
    (prot : gset string) (here : frame) (attr : string) (v : value)
    (self : instance) :
  co_name here = "characteristic_init" \/ co_name here = "__init__" ->
  immutable.characteristic_immutability_sentry call prot (Some here)
    (VStr attr) v self
  = call_attribute call "__original_setattr__"
      {| co_name := "characteristic_immutability_sentry";
         f_owner := Some (c_id (i_class self)) |}
      [VStr attr; v] ∅ self
  /\ (class_lookup (i_class self) "__setattr__" = Some (sentry_closure prot) ->
      class_lookup (i_class self) "__original_setattr__"
        = Some object_setattr ->
      assign here attr v self = (Ok tt, store attr v self)).
Proof.
  intros H.
  assert (Hv : co_name here ∈ _VALID_INITS).
  { unfold _VALID_INITS. destruct H as [-> | ->]; set_solver. }
  split.
  - apply sentry_forwards. right. eauto.
  - intros Hs Ho. apply (sentry_forwards_to_object prot); auto.
Qed.

(** ** The initializer *)

(** Case analysis on the outcome of the first computation of a sequence;
    the case where it raises is closed at once. *)
Ltac run_pair_in H :=
  match type of H with
  | context [let (_, _) := ?X in _] =>
      destruct X as [[?|?] ?]; [|discriminate H]
  end.

Ltac run_pair :=
  match goal with
  | |- context [let (_, _) := ?X in _] =>
      destruct X as [[?|?] ?]; [|reflexivity]
  end.

Lemma required_attribute (a : Attribute) :
  Attribute_init (name a) NOTHING None = Ok a -> get_default a = Ok NOTHING.
Proof.
  rewrite Attribute_init_plain. intros H. injection H as <-. reflexivity.
Qed.

(** The loop only ever removes keys from [kw]. *)
Lemma set_attributes_kw (call : caller) (attrs : list Attribute) :
  forall kw self kw' self' k,
    with_init.set_attributes call attrs kw self = (Ok kw', self') ->
    kw !! k = None -> kw' !! k = None.
Proof.
  induction attrs as [|b attrs IH]; intros kw self kw' self' k Hrun Hk.
  - change ((Ok kw, self) = (Ok kw', self')) in Hrun. congruence.
  - cbn [with_init.set_attributes] in Hrun. unfold_monad.
    run_pair_in Hrun. destruct (is_NOTHING _); [discriminate|].
    run_pair_in Hrun. apply (IH _ _ _ _ k Hrun).
    destruct (decide (name b = k)) as [->|Hne].
    + apply lookup_delete_eq.
    + rewrite lookup_delete_ne by exact Hne. exact Hk.
Qed.

Lemma set_attributes_app (call : caller) (pre rest : list Attribute) :
  forall kw self,
    with_init.set_attributes call (pre ++ rest) kw self =
    match with_init.set_attributes call pre kw self with
    | (Ok kw', self') => with_init.set_attributes call rest kw' self'
    | (Raise e, self') => (Raise e, self')
    end.
Proof.
  induction pre as [|b pre IH]; intros kw self.
  - reflexivity.
  - cbn [app with_init.set_attributes]. unfold_monad.
    run_pair. destruct (is_NOTHING _); [reflexivity|].
    run_pair. apply IH.
Qed.

Lemma set_attributes_missing (call : caller) (a : Attribute)
    (post : list Attribute) (kw : gmap string value) (self : instance) :
  Attribute_init (name a) NOTHING None = Ok a ->
  kw !! name a = None ->
  with_init.set_attributes call (a :: post) kw self
  = (Raise (ValueError ("Missing keyword value for '" +:+ name a +:+ "'.")),
     self).
Proof.
  intros Ha Hk. cbn [with_init.set_attributes]. rewrite Hk.
  cbn [default is_NOTHING]. unfold_monad.
  rewrite (required_attribute a Ha). reflexivity.
Qed.

Lemma call_characteristic_init (d : nat) (attrs : list Attribute)
    (f_back : option frame) (args : list value) (kw : gmap string value)
    (self : instance) :
  call_method (S d) (characteristic_init_closure attrs) f_back args kw self
  = with_init.characteristic_init (call_method d) attrs args kw self.
Proof. reflexivity. Qed.

Lemma construct_runs_characteristic_init (cl : class) (here : frame)
    (args : list value) (kw : gmap string value) (attrs : list Attribute) :
  class_lookup cl "__init__" = Some (characteristic_init_closure attrs) ->
  construct cl here args kw =
  match with_init.characteristic_init (call_method (Nat.pred recursion_limit))
          attrs args kw {| i_class := cl; i_dict := ∅ |} with
  | (Ok _, self) => Ok self
  | (Raise e, _) => Raise e
  end.
Proof.
  intros H. unfold construct, call_attribute. cbn [i_class]. rewrite H.
  rewrite recursion_limit_S at 1. now rewrite call_characteristic_init.
Qed.

(** C2, as stated, fails on what the error names: constructing [Person],
    whose attribute [id] is required, without [id] raises a [ValueError]
    whose message names [id] but not [Person]; and constructing [Pair]
    without its two required attributes raises an error that names [left],
    the first of them, and not [right]. *)
Lemma C2_counterexample_message_omits_the_type :
  construct Examples.Person Examples.module_level [] ∅
    = Raise (ValueError "Missing keyword value for 'id'.")
  /\ c_name Examples.Person = "Person"
  /\ contains "id" "Missing keyword value for 'id'." = true
  /\ contains "Person" "Missing keyword value for 'id'." = false
  /\ construct Examples.Pair Examples.module_level [] ∅
     = Raise (ValueError "Missing keyword value for 'left'.")
  /\ contains "right" "Missing keyword value for 'left'." = false.
Proof. repeat split; vm_compute; reflexivity. Qed.

(** C2 (amended): if a declared attribute has neither a default value nor
    a default factory and is not passed as a keyword argument, construction
    fails.  When the attributes declared before it are set without error,
    the failure is a [ValueError] whose message, [Missing keyword value for
    '<name>'.], names that attribute; the message does not depend on the
    class. *)
Theorem C2_missing_required_attribute (cl : class) (here : frame)
    (args : list value) (kw : gmap string value)
    (pre post : list Attribute) (a : Attribute) :
  class_lookup cl "__init__"
    = Some (characteristic_init_closure (pre ++ a :: post)) ->
  Attribute_init (name a) NOTHING None = Ok a ->
  kw !! name a = None ->
  (exists e, construct cl here args kw = Raise e)
  /\ (forall kw' self',
        with_init.set_attributes (call_method (Nat.pred recursion_limit)) pre
          kw {| i_class := cl; i_dict := ∅ |} = (Ok kw', self') ->
        let msg := "Missing keyword value for '" +:+ name a +:+ "'." in
        construct cl here args kw = Raise (ValueError msg)
        /\ contains (name a) msg = true).
Proof.
  intros Hinit Ha Hk.
  rewrite (construct_runs_characteristic_init _ _ _ _ _ Hinit).
  unfold with_init.characteristic_init. unfold_monad.
  rewrite set_attributes_app.
  destruct (with_init.set_attributes _ pre kw _) as [[kw1|e] s1] eqn:Epre.
  - pose proof (set_attributes_kw _ _ _ _ _ _ _ Epre Hk) as Hk1.
    rewrite (set_attributes_missing _ _ _ _ _ Ha Hk1). split.
    + eauto.
    + intros kw' self' _. split; [reflexivity|].
      apply (contains_app "Missing keyword value for '").
  - split; [eauto|]. intros kw' self' H. discriminate H.
Qed.

(** C9 (the code departs from the claim): a [defaults] entry whose value is
    false in a boolean context is dropped when [with_init] builds its
    attributes, so the attribute becomes required: with [defaults = {"x":
    0}] or [{"x": ""}], constructing without [x] raises [ValueError]
    instead of storing the default.  A true default is used, and the same
    default passed through [Attribute(default_value=0)] is used too. *)
Theorem C9_falsy_legacy_default_is_dropped :
  (forall s dv (defaults : gmap string value),
     defaults !! s = Some dv -> truthy dv = false ->
     with_init.new_attrs [Name s] defaults
     = Ok [ {| name := s; _default := Some NOTHING;
               _default_factory := None |} ])
  /\ (cl ← Examples.Legacy (VInt 0);
      construct cl Examples.module_level [] ∅)
     = Raise (ValueError "Missing keyword value for 'x'.")
  /\ (cl ← Examples.Legacy (VStr "");
      construct cl Examples.module_level [] ∅)
     = Raise (ValueError "Missing keyword value for 'x'.")
  /\ (cl ← Examples.Legacy (VInt 7);
      self ← construct cl Examples.module_level [] ∅;
      Ok (i_dict self))
     = Ok {[ "x" := VInt 7 ]}
  /\ (cl ← Examples.Modern (VInt 0);
      self ← construct cl Examples.module_level [] ∅;
      Ok (i_dict self))
     = Ok {[ "x" := VInt 0 ]}.
Proof.
  split; [|repeat split; vm_compute; reflexivity].
  intros s dv defaults Hs Hf. cbn [with_init.new_attrs].
  rewrite Hs. change (default VNone (Some dv)) with dv.
  rewrite Hf, Attribute_init_plain. reflexivity.
Qed.

(** ** The properties at concrete inputs *)

(** C1 at concrete inputs: a module-level assignment to [Point]'s [x] is
    refused, one to [z] is stored; on [Frozen], whose own [__setattr__]
    refuses everything, a module-level assignment to the unprotected [z] is
    the call of that [__setattr__]. *)
Lemma C1_witness :
  let self := Examples.point Examples.Point 1 2 in
  let frozen := {| i_class := Examples.Frozen; i_dict := ∅ |} in
  assign Examples.module_level "x" (VInt 5) self
    = (Raise (TypeError "Attribute 'x' of class 'Point' is immutable."), self)
  /\ assign Examples.module_level "z" (VInt 5) self
     = (Ok tt, store "z" (VInt 5) self)
  /\ assign Examples.module_level "z" (VInt 5) frozen
     = (Raise (UserError "frozen"), frozen).
Proof.
  cbv zeta. split; [|split].
  - refine (proj1 (proj1 (C1_sentry_rejects_other_callers
             [Name "x"; Name "y"] None true (Examples.plain 1 "Point")
             Examples.Point {[ "x"; "y" ]}
             (Examples.point Examples.Point 1 2) Examples.module_level
             "x" (VInt 5) _ _ _) _ _)).
    + vm_compute. reflexivity.
    + left. vm_compute. reflexivity.
    + reflexivity.
    + apply (bool_decide_unpack _). vm_compute. exact I.
    + apply (bool_decide_unpack _). vm_compute. exact I.
  - refine (proj2 (proj2 (C1_sentry_rejects_other_callers
             [Name "x"; Name "y"] None true (Examples.plain 1 "Point")
             Examples.Point {[ "x"; "y" ]}
             (Examples.point Examples.Point 1 2) Examples.module_level
             "z" (VInt 5) _ _ _)) _ _).
    + vm_compute. reflexivity.
    + left. vm_compute. reflexivity.
    + reflexivity.
    + apply (bool_decide_unpack _). vm_compute. exact I.
    + reflexivity.
  - pose proof (C1_sentry_rejects_other_callers
             [Name "x"] None true
             {| c_id := 8; c_name := "Frozen"; c_bases := [];
                c_dict := [("__setattr__",
                            user_function
                              (fun _ _ => raise (UserError "frozen")))] |}
             Examples.Frozen {[ "x" ]}
             {| i_class := Examples.Frozen; i_dict := ∅ |}
             Examples.module_level "z" (VInt 5)) as H.
    destruct H as (_ & H & _).
    + vm_compute. reflexivity.
    + right. vm_compute. reflexivity.
    + reflexivity.
    + destruct H as (previous & Hprevious & _ & Hassign).
      * apply (bool_decide_unpack _). vm_compute. exact I.
      * rewrite Hassign. injection Hprevious as <-. vm_compute. reflexivity.
Defined.

(** C2 at a concrete input: [Person()] without [id]. *)
Lemma C2_witness :
  construct Examples.Person Examples.module_level [] ∅
  = Raise (ValueError "Missing keyword value for 'id'.").
Proof.
  refine (proj1 (proj2 (C2_missing_required_attribute Examples.Person
            Examples.module_level [] ∅ []
            []
            {| name := "id"; _default := Some NOTHING;
               _default_factory := None |} _ _ _)
            ∅ {| i_class := Examples.Person; i_dict := ∅ |} _)).
  - reflexivity.
  - reflexivity.
  - reflexivity.
  - reflexivity.
Defined.

(** C3 at a concrete input: two equal points, two different points, a point and a subclass instance. *)
Lemma C3_witness :
  with_cmp.eq Examples.xy (Examples.point Examples.Point 1 2)
    (Examples.point Examples.Point 1 2) = Ok (VBool true)
  /\ with_cmp.ne Examples.xy (Examples.point Examples.Point 1 2)
       (Examples.point Examples.Point 1 3) = Ok (VBool true)
  /\ with_cmp.eq Examples.xy (Examples.point Examples.Point 1 2)
       (Examples.point Examples.SubPoint 1 2) = Ok NotImplemented.
Proof.
  split; [|split].
  - refine (proj1 (proj1 (C3_eq_is_pairwise_and_type_exact Examples.xy
             (Examples.point Examples.Point 1 2)
             (Examples.point Examples.Point 1 2)) _ _ _));
      reflexivity.
  - refine (proj2 (proj1 (C3_eq_is_pairwise_and_type_exact Examples.xy
             (Examples.point Examples.Point 1 2)
             (Examples.point Examples.Point 1 3)) _ _ _));
      reflexivity.
  - refine (proj1 (proj1 (proj2 (C3_eq_is_pairwise_and_type_exact Examples.xy
             (Examples.point Examples.Point 1 2)
             (Examples.point Examples.SubPoint 1 2))) _)).
    vm_compute. intros H. discriminate H.
Defined.

(** C4 at a concrete input: two equal points under [number_hash]. *)
Lemma C4_witness :
  exists h,
    @with_cmp.hash_ Examples.number_PyHash Examples.xy
      (Examples.point Examples.Point 1 2) = Ok h
    /\ @with_cmp.hash_ Examples.number_PyHash Examples.xy
         (Examples.point Examples.Point 1 2) = Ok h.
Proof.
  refine (proj1 (@C4_equal_instances_hash_alike Examples.number_PyHash
            Examples.xy (Examples.point Examples.Point 1 2)
            (Examples.point Examples.Point 1 2) _)).
  reflexivity.
Defined.

(** C5 at a concrete input: the namespace and the write path of [Point]. *)
Lemma C5_witness :
  map fst (c_dict Examples.Point) =
    ["__repr__"; "__eq__"; "__ne__"; "__lt__"; "__le__"; "__gt__"; "__ge__";
     "__hash__"; "__original_setattr__"; "__setattr__";
     "__original_init__"; "__init__"; "__characteristic_setattr__"]
  /\ class_lookup Examples.Point "__characteristic_setattr__"
     = Some object_setattr.
Proof.
  pose proof (C5_composition_order_and_write_path [Name "x"; Name "y"] None
                true true (Examples.plain 1 "Point") Examples.xy Examples.xy
                eq_refl eq_refl) as H.
  cbv zeta in H. destruct H as (_ & _ & Hkeys & _ & Hinit). split.
  - exact (Hkeys eq_refl).
  - exact (proj1 (proj2 (proj2 (Hinit eq_refl)))).
Defined.

(** C6 at a concrete input: [defaults] with an [Attribute] that has a default. *)
Lemma C6_witness :
  with_init.decorator
    [Attr {| name := "x"; _default := Some (VInt 1);
             _default_factory := None |}]
    (Some {[ "y" := VInt 2 ]})
  = Raise (ValueError with_init.mixing_message).
Proof.
  refine (proj1 (C6_mixing_defaults_and_Attribute
            [Attr {| name := "x"; _default := Some (VInt 1);
                     _default_factory := None |}]
            {[ "y" := VInt 2 ]} _ _)).
  - apply (bool_decide_unpack _). vm_compute. exact I.
  - reflexivity.
Defined.

(** C7 at a concrete input: the ordering of points, and a point against a subclass instance. *)
Lemma C7_witness :
  with_cmp.lt Examples.xy (Examples.point Examples.Point 1 2)
    (Examples.point Examples.Point 1 3) = Ok (VBool true)
  /\ with_cmp.lt Examples.xy (Examples.point Examples.Point 1 2)
       (Examples.point Examples.SubPoint 1 3) = Ok NotImplemented.
Proof.
  destruct C7_ordering_is_lexicographic as (_ & _ & Hex & Hgate). split.
  - exact (proj1 (Hex Examples.Point)).
  - refine (proj1 (Hgate Examples.xy (Examples.point Examples.Point 1 2)
                     (Examples.point Examples.SubPoint 1 3) _)).
    vm_compute. intros H. discriminate H.
Defined.

(** C8 at a concrete input: [Attribute] with a default value and a factory. *)
Lemma C8_witness :
  Attribute_init "x" (VInt 1) (Some Examples.lambda_two)
  = Raise (ValueError
             "Passing both default_value and default_factory is ambiguous.").
Proof.
  refine (proj1 (proj1 (C8_conflicting_default_strategy "x" (VInt 1)
                          (Some Examples.lambda_two))) _).
  split; intros H; discriminate H.
Defined.

(** C9 at a concrete input: [with_init] with [defaults = {x: 0}]. *)
Lemma C9_witness :
  with_init.new_attrs [Name "x"] {[ "x" := VInt 0 ]}
  = Ok [ {| name := "x"; _default := Some NOTHING;
            _default_factory := None |} ].
Proof.
  refine (proj1 C9_falsy_legacy_default_is_dropped "x" (VInt 0)
            {[ "x" := VInt 0 ]} _ _).
  - reflexivity.
  - reflexivity.
Defined.

(** C10 at a concrete input: the [__init__] of another class assigns [Point]'s [x]. *)
Lemma C10_witness :
  let self := Examples.point Examples.Point 1 2 in
  assign Examples.foreign_init "x" (VInt 5) self
  = (Ok tt, store "x" (VInt 5) self).
Proof.
  cbv zeta.
  refine (proj2 (C10_initializer_names_pass_the_sentry
            (call_method recursion_limit) {[ "x"; "y" ]}
            Examples.foreign_init "x" (VInt 5)
            (Examples.point Examples.Point 1 2) _) _ _).
  - right. reflexivity.
  - vm_compute. reflexivity.
  - reflexivity.
Defined.

(** * Further properties of the code *)

(** ** [_ensure_attributes] *)

Lemma _ensure_attributes_run (attrs : list attr_decl) :
  _ensure_attributes attrs
  = Ok (map (fun d => match d with Name s => required s | Attr a => a end)
          attrs).
Proof.
  induction attrs as [|d attrs IH]; [reflexivity|].
  cbn [_ensure_attributes map]. rewrite IH.
  destruct d as [s|a]; [rewrite Attribute_init_plain|]; reflexivity.
Qed.

(** X1: [_ensure_attributes] never raises; the list it returns has the
    declared names in the declared order, holds every [Attribute] instance
    unchanged and, for every plain name, an [Attribute] without default
    whose [_default] is [NOTHING]; applied to its own output it returns it
    unchanged. *)
Theorem X1_ensure_attributes_normalises (attrs : list attr_decl) :
  exists l,
    _ensure_attributes attrs = Ok l
    /\ map name l = map declared_name attrs
    /\ (forall (i : nat) s, attrs !! i = Some (Name s) ->
          l !! i = Some (required s) /\ get_default (required s) = Ok NOTHING)
    /\ (forall (i : nat) a, attrs !! i = Some (Attr a) -> l !! i = Some a)
    /\ _ensure_attributes (map Attr l) = Ok l.
Proof.
  eexists. split; [apply _ensure_attributes_run|]. split; [|split; [|split]].
  - rewrite map_map. apply map_ext. intros [s|a]; reflexivity.
  - intros i s H. rewrite list_lookup_fmap, H. split; reflexivity.
  - intros i a H. now rewrite list_lookup_fmap, H.
  - rewrite _ensure_attributes_run, map_map. f_equal. apply map_id.
Qed.

(** ** Comparison methods *)

Lemma py_eq_refl (v : value) : py_eq v v = true.
Proof.
  destruct v as [| | |b|n|s]; unfold py_eq; cbn [as_int];
    try reflexivity; try apply Z.eqb_refl.
  apply String.eqb_refl.
Qed.

Lemma py_eq_sym (x y : value) : py_eq x y = py_eq y x.
Proof.
  destruct x, y; unfold py_eq; cbn [as_int]; try reflexivity;
    try apply Z.eqb_sym.
  apply String.eqb_sym.
Qed.



Lemma class_is_sym (cl1 cl2 : class) : class_is cl1 cl2 = class_is cl2 cl1.
Proof. unfold class_is. apply Nat.eqb_sym. Qed.

Lemma cmp_Z_mirrored (op : cmpop) (a b : Z) :
  cmp_Z (mirrored op) b a = cmp_Z op a b.
Proof. destruct op; cbn [mirrored cmp_Z]; rewrite ?(Z.eqb_sym b a); reflexivity. Qed.

Lemma cmp_string_mirrored (op : cmpop) (s t : string) :
  cmp_string (mirrored op) t s = cmp_string op s t.
Proof.
  destruct op; cbn [mirrored cmp_string]; rewrite ?(String.eqb_sym t s);
    reflexivity.
Qed.

Lemma py_richcompare_mirrored (op : cmpop) (x y : value) (b : bool) :
  py_richcompare op x y = Ok b -> py_richcompare (mirrored op) y x = Ok b.
Proof.
  destruct op; cbn [py_richcompare mirrored];
    try (rewrite (py_eq_sym y x); exact (fun H => H));
    destruct x, y; cbn [as_int]; try discriminate;
    intros H; injection H as <-; f_equal.
Qed.

Lemma tuple_richcompare_mirrored (op : cmpop) (t1 t2 : list value) (b : bool) :
  tuple_richcompare op t1 t2 = Ok b ->
  tuple_richcompare (mirrored op) t2 t1 = Ok b.
Proof.
  revert t2. induction t1 as [|x t1 IH]; intros [|y t2];
    cbn [tuple_richcompare]; unfold cmp_size;
    try (rewrite cmp_Z_mirrored; exact (fun H => H)).
  rewrite (py_eq_sym y x). destruct (py_eq x y); [apply IH|].
  destruct op; cbn [mirrored]; try exact (fun H => H);
    apply py_richcompare_mirrored.
Qed.

(** X3: the ordering methods mirror each other: [a < b] returns what
    [b > a] returns and [a <= b] what [b >= a] returns, whenever one of the
    two returns at all, [NotImplemented] included. *)
Theorem X3_orderings_mirror (attrs : list Attribute) (a b : instance)
    (v : value) :
  (with_cmp.lt attrs a b = Ok v <-> with_cmp.gt attrs b a = Ok v)
  /\ (with_cmp.le attrs a b = Ok v <-> with_cmp.ge attrs b a = Ok v).
Proof.
  assert (H : forall op x y, compare_tuples op attrs x y = Ok v ->
                             compare_tuples (mirrored op) attrs y x = Ok v).
  { intros op x y. unfold compare_tuples. rewrite (class_is_sym (i_class x)).
    destruct (class_is _ _); [|exact (fun H => H)].
    destruct (with_cmp.attrs_to_tuple attrs x) as [t1|]; [|discriminate].
    destruct (with_cmp.attrs_to_tuple attrs y) as [t2|]; [|discriminate].
    unfold_monad. cbv beta iota.
    destruct (tuple_richcompare op t1 t2) as [c|] eqn:E; [|discriminate].
    now rewrite (tuple_richcompare_mirrored _ _ _ _ E). }
  split; split.
  - apply (H Py_LT).
  - apply (H Py_GT).
  - apply (H Py_LE).
  - apply (H Py_GE).
Qed.

Lemma pairwise_equal_carried (attrs : list Attribute) (a b : instance) :
  pairwise_equal attrs a b = true ->
  has_attributes attrs a = true /\ has_attributes attrs b = true.
Proof.
  induction attrs as [|x attrs IH]; [split; reflexivity|].
  cbn [pairwise_equal has_attributes forallb]. intros H.
  apply andb_true_iff in H as [Hx H]. destruct (IH H) as [Ha Hb].
  destruct (i_dict a !! name x) as [u|], (i_dict b !! name x) as [w|];
    try discriminate Hx.
  split; apply andb_true_iff; (split; [|assumption]);
    apply bool_decide_eq_true_2; eauto.
Qed.

Lemma pairwise_equal_refl (attrs : list Attribute) (a : instance) :
  has_attributes attrs a = true -> pairwise_equal attrs a a = true.
Proof.
  induction attrs as [|x attrs IH]; [reflexivity|].
  cbn [pairwise_equal has_attributes forallb]. intros H.
  apply andb_true_iff in H as [Hx H].
  apply bool_decide_eq_true in Hx as [u Hu].
  rewrite Hu, py_eq_refl. now apply IH.
Qed.

Lemma pairwise_equal_sym (attrs : list Attribute) (a b : instance) :
  pairwise_equal attrs a b = pairwise_equal attrs b a.
Proof.
  induction attrs as [|x attrs IH]; [reflexivity|].
  cbn [pairwise_equal forallb]. fold (pairwise_equal attrs a b).
  fold (pairwise_equal attrs b a). rewrite IH. f_equal.
  destruct (i_dict a !! name x), (i_dict b !! name x); try reflexivity.
  apply py_eq_sym.
Qed.

Lemma eq_carried (attrs : list Attribute) (a b : instance) :
  has_attributes attrs a = true -> has_attributes attrs b = true ->
  with_cmp.eq attrs a b =
  if class_is (i_class b) (i_class a)
  then Ok (VBool (pairwise_equal attrs a b)) else Ok NotImplemented.
Proof.
  intros Ha Hb.
  destruct (tuples_of_carried_attributes attrs a b Ha Hb)
    as (t1 & t2 & H1 & H2 & H12).
  unfold with_cmp.eq. rewrite H1, H2. unfold_monad. cbv beta iota.
  now rewrite H12.
Qed.

(** X2: on instances that carry the declared attributes the synthesized
    [eq] is reflexive and symmetric: an instance equals itself, and
    [eq(a, b)] returns what [eq(b, a)] returns. *)
Theorem X2_eq_reflexive_symmetric (attrs : list Attribute) (a b : instance) :
  has_attributes attrs a = true -> has_attributes attrs b = true ->
  with_cmp.eq attrs a a = Ok (VBool true)
  /\ with_cmp.eq attrs a b = with_cmp.eq attrs b a.
Proof.
  intros Ha Hb. split.
  - rewrite (eq_carried _ _ _ Ha Ha). unfold class_is.
    now rewrite Nat.eqb_refl, pairwise_equal_refl.
  - rewrite (eq_carried _ _ _ Ha Hb), (eq_carried _ _ _ Hb Ha).
    now rewrite class_is_sym, pairwise_equal_sym.
Qed.





Lemma attrs_to_tuple_missing (pre post : list Attribute) (x : Attribute)
    (a : instance) :
  has_attributes pre a = true -> i_dict a !! name x = None ->
  with_cmp.attrs_to_tuple (pre ++ x :: post) a = Raise (no_attribute (name x)).
Proof.
  intros Hpre Hx. induction pre as [|p pre IH];
    cbn [app with_cmp.attrs_to_tuple]; unfold getattr.
  - now rewrite Hx.
  - cbn [has_attributes forallb] in Hpre.
    apply andb_true_iff in Hpre as [Hp Hpre].
    apply bool_decide_eq_true in Hp as [u ->].
    unfold_monad. cbv beta iota. fold (getattr a (name x)).
    now rewrite (IH Hpre).
Qed.

Lemma fields_missing (pre post : list Attribute) (x : Attribute)
    (a : instance) :
  has_attributes pre a = true -> i_dict a !! name x = None ->
  with_repr.fields (pre ++ x :: post) a = Raise (no_attribute (name x)).
Proof.
  intros Hpre Hx. induction pre as [|p pre IH];
    cbn [app with_repr.fields]; unfold getattr.
  - now rewrite Hx.
  - cbn [has_attributes forallb] in Hpre.
    apply andb_true_iff in Hpre as [Hp Hpre].
    apply bool_decide_eq_true in Hp as [u ->].
    unfold_monad. cbv beta iota. now rewrite (IH Hpre).
Qed.

(** X6: if an instance lacks a declared attribute, every synthesized
    method that reads it raises [AttributeError] for the first attribute
    that is missing, in declaration order: the comparisons with an instance
    of the same class, [hash_] and [repr_]. *)
Theorem X6_missing_attribute_raises `{PyHash} (pre post : list Attribute)
    (x : Attribute) (a b : instance) :
  has_attributes pre a = true ->
  i_dict a !! name x = None ->
  class_is (i_class b) (i_class a) = true ->
  let attrs := (pre ++ x :: post)%list in
  let e := AttributeError (name x) in
  with_cmp.eq attrs a b = Raise e /\ with_cmp.ne attrs a b = Raise e
  /\ with_cmp.lt attrs a b = Raise e /\ with_cmp.le attrs a b = Raise e
  /\ with_cmp.gt attrs a b = Raise e /\ with_cmp.ge attrs a b = Raise e
  /\ with_cmp.hash_ attrs a = Raise e
  /\ with_repr.repr_ attrs a = Raise e.
Proof.
  intros Hpre Hx Hcl attrs e.
  pose proof (attrs_to_tuple_missing pre post x a Hpre Hx) as Ht.
  pose proof (fields_missing pre post x a Hpre Hx) as Hf.
  unfold with_cmp.ne, with_cmp.eq, with_cmp.lt, with_cmp.le, with_cmp.gt,
    with_cmp.ge, with_cmp.hash_, with_repr.repr_.
  fold attrs in Ht, Hf. rewrite Hcl, Ht, Hf. repeat split.
Qed.

Lemma attrs_to_tuple_store (attrs : list Attribute) (k : string) (v : value)
    (a : instance) :
  ~ In k (map name attrs) ->
  with_cmp.attrs_to_tuple attrs (store k v a) = with_cmp.attrs_to_tuple attrs a.
Proof.
  induction attrs as [|x attrs IH]; [reflexivity|].
  cbn [map In with_cmp.attrs_to_tuple]. intros Hk.
  rewrite IH by tauto. unfold getattr, store. cbn [i_dict].
  rewrite lookup_insert_ne by (intros ->; tauto). reflexivity.
Qed.

Lemma fields_store (attrs : list Attribute) (k : string) (v : value)
    (a : instance) :
  ~ In k (map name attrs) ->
  with_repr.fields attrs (store k v a) = with_repr.fields attrs a.
Proof.
  induction attrs as [|x attrs IH]; [reflexivity|].
  cbn [map In with_repr.fields]. intros Hk.
  rewrite IH by tauto. unfold getattr, store. cbn [i_dict].
  rewrite lookup_insert_ne by (intros ->; tauto). reflexivity.
Qed.

(** X7: an attribute that is not declared takes no part in the synthesized
    methods: storing one on either operand changes neither the comparisons
    nor the hash nor the representation. *)
Theorem X7_undeclared_attributes_ignored `{PyHash} (attrs : list Attribute)
    (k : string) (v : value) (a b : instance) :
  ~ In k (map name attrs) ->
  Forall (fun method =>
            method attrs (store k v a) b = method attrs a b
            /\ method attrs b (store k v a) = method attrs b a)
    [with_cmp.eq; with_cmp.ne; with_cmp.lt; with_cmp.le; with_cmp.gt;
     with_cmp.ge]
  /\ with_cmp.hash_ attrs (store k v a) = with_cmp.hash_ attrs a
  /\ with_repr.repr_ attrs (store k v a) = with_repr.repr_ attrs a.
Proof.
  intros Hk.
  pose proof (attrs_to_tuple_store attrs k v a Hk) as Ht.
  pose proof (fields_store attrs k v a Hk) as Hf.
  unfold with_cmp.ne, with_cmp.eq, with_cmp.lt, with_cmp.le, with_cmp.gt,
    with_cmp.ge, with_cmp.hash_, with_repr.repr_.
  rewrite Hf. split; [|split; [now rewrite Ht | reflexivity]].
  repeat constructor; rewrite ?Ht; reflexivity.
Qed.

(** X8: [hash_] looks at the attribute values only, not at the class: two
    instances whose declared attributes are pairwise equal hash alike even
    when their classes differ (and [eq] returns [NotImplemented]). *)
Theorem X8_hash_ignores_the_class `{PyHash} (attrs : list Attribute)
    (a b : instance) :
  pairwise_equal attrs a b = true ->
  exists h, with_cmp.hash_ attrs a = Ok h /\ with_cmp.hash_ attrs b = Ok h.
Proof.
  intros Hp. destruct (pairwise_equal_carried _ _ _ Hp) as [Ha Hb].
  destruct (tuples_of_carried_attributes attrs a b Ha Hb)
    as (t1 & t2 & H1 & H2 & H12).
  rewrite Hp in H12. unfold with_cmp.hash_. rewrite H1, H2.
  exists (hash_tuple t1). split; [reflexivity|]. unfold_monad.
  unfold hash_tuple. now rewrite (equal_tuples_hash_alike t1 t2 H12).
Qed.

(** ** The representation *)

Lemma prefix_app_l (n s t : string) :
  String.prefix n s = true -> String.prefix n (s +:+ t) = true.
Proof.
  revert s. induction n as [|c n IH]; intros s;
    [now destruct (s +:+ t)|].
  destruct s as [|c' s]; [discriminate|].
  change (String c' s +:+ t) with (String c' (s +:+ t)).
  cbn [String.prefix]. destruct (Ascii.ascii_dec c c'); [apply IH | discriminate].
Qed.

Lemma contains_empty (s : string) : contains "" s = true.
Proof. destruct s; reflexivity. Qed.

Lemma contains_app_l (n s t : string) :
  contains n s = true -> contains n (s +:+ t) = true.
Proof.
  induction s as [|c s IH].
  - cbn [contains]. rewrite orb_false_r. destruct n; [|discriminate].
    intros _. apply contains_empty.
  - change (String c s +:+ t) with (String c (s +:+ t)).
    cbn [contains]. intros H. apply orb_true_iff in H as [H|H].
    + change (String c (s +:+ t)) with (String c s +:+ t).
      now rewrite (prefix_app_l _ _ t H).
    + rewrite (IH H). apply orb_true_r.
Qed.

Lemma contains_app_r (n p s : string) :
  contains n s = true -> contains n (p +:+ s) = true.
Proof.
  intros H. induction p as [|c p IH]; [exact H|].
  change (String c p +:+ s) with (String c (p +:+ s)).
  cbn [contains]. rewrite IH. apply orb_true_r.
Qed.

Lemma contains_refl (s : string) : contains s s = true.
Proof.
  apply contains_prefix. induction s as [|c s IH]; [reflexivity|].
  cbn [String.prefix]. now destruct (Ascii.ascii_dec c c).
Qed.

Lemma contains_join (sep f : string) (fs : list string) :
  In f fs -> contains f (join sep fs) = true.
Proof.
  induction fs as [|g fs IH]; [intros []|].
  intros [->|H].
  - destruct fs as [|g' fs]; [apply contains_refl|].
    cbn [join]. apply contains_app_l, contains_refl.
  - destruct fs as [|g' fs]; [destruct H|].
    change (join sep (g :: g' :: fs))
      with (g +:+ sep +:+ join sep (g' :: fs)).
    now apply contains_app_r, contains_app_r, IH.
Qed.

(** The text [repr_] writes for one attribute. *)
Lemma fields_carried (attrs : list Attribute) (self : instance) :
  has_attributes attrs self = true ->
  with_repr.fields attrs self
  = Ok (map (fun a => name a +:+ "="
                      +:+ py_repr (default VNone (i_dict self !! name a)))
          attrs).
Proof.
  induction attrs as [|x attrs IH]; [reflexivity|].
  cbn [has_attributes forallb]. intros H.
  apply andb_true_iff in H as [Hx H].
  apply bool_decide_eq_true in Hx as [u Hu].
  cbn [with_repr.fields map]. unfold getattr. rewrite Hu, (IH H).
  reflexivity.
Qed.

(** X9: for an instance that carries the declared attributes, [repr_]
    returns [<ClassName(...)>] where the parentheses hold, in declaration
    order and separated by a comma and a space, [name=repr(value)] for
    every declared attribute, so each such text occurs in the result;
    without attributes the result is [<ClassName()>]. *)
Theorem X9_repr_lists_the_attributes (attrs : list Attribute)
    (self : instance) :
  has_attributes attrs self = true ->
  let field a :=
    name a +:+ "=" +:+ py_repr (default VNone (i_dict self !! name a)) in
  let body := join ", " (map field attrs) in
  with_repr.repr_ attrs self
    = Ok ("<" +:+ c_name (i_class self) +:+ "(" +:+ body +:+ ")>")
  /\ (forall a v, In a attrs -> i_dict self !! name a = Some v ->
        contains (name a +:+ "=" +:+ py_repr v) body = true)
  /\ (attrs = [] -> body = "").
Proof.
  intros H field body. split; [|split].
  - unfold with_repr.repr_. now rewrite (fields_carried _ _ H).
  - intros a v Ha Hv. apply contains_join.
    apply in_map_iff. exists a. split; [|exact Ha].
    unfold field. now rewrite Hv.
  - intros ->. reflexivity.
Qed.

(** ** The initializer, when it succeeds *)

Lemma resolve_delete (a : Attribute) (k : string) (kw : gmap string value) :
  name a <> k -> resolve a (delete k kw) = resolve a kw.
Proof. intros H. unfold resolve. now rewrite lookup_delete_ne. Qed.

Lemma attribute_values_delete (attrs : list Attribute) (k : string)
    (kw d : gmap string value) :
  ~ In k (map name attrs) ->
  attribute_values attrs (delete k kw) d = attribute_values attrs kw d.
Proof.
  revert d. induction attrs as [|a attrs IH]; intros d Hk; [reflexivity|].
  cbn [map In] in Hk. cbn [attribute_values].
  rewrite resolve_delete by tauto.
  destruct (resolve a kw); apply IH; tauto.
Qed.

Lemma attribute_values_other (attrs : list Attribute) (k : string)
    (kw d : gmap string value) :
  ~ In k (map name attrs) -> attribute_values attrs kw d !! k = d !! k.
Proof.
  revert d. induction attrs as [|a attrs IH]; intros d Hk; [reflexivity|].
  cbn [map In] in Hk. cbn [attribute_values].
  destruct (resolve a kw); rewrite IH by tauto; [|reflexivity].
  apply lookup_insert_ne. tauto.
Qed.

Lemma attribute_values_declared (attrs : list Attribute) (a : Attribute)
    (v : value) (kw d : gmap string value) :
  NoDup (map name attrs) -> In a attrs -> resolve a kw = Ok v ->
  attribute_values attrs kw d !! name a = Some v.
Proof.
  revert d. induction attrs as [|x attrs IH]; intros d Hnd Hin Hv;
    [destruct Hin|].
  cbn [map] in Hnd. apply NoDup_cons in Hnd as [Hx Hnd].
  cbn [attribute_values]. destruct Hin as [->|Hin].
  - rewrite Hv, attribute_values_other.
    + apply lookup_insert_eq.
    + intros H. apply Hx. now apply list_elem_of_In.
  - destruct (resolve x kw); now apply IH.
Qed.

Lemma remaining_keywords_delete (attrs : list Attribute) (k : string)
    (kw : gmap string value) :
  remaining_keywords attrs (delete k kw)
  = delete k (remaining_keywords attrs kw).
Proof.
  induction attrs as [|a attrs IH]; [reflexivity|].
  cbn [remaining_keywords foldr]. fold (remaining_keywords attrs (delete k kw)).
  fold (remaining_keywords attrs kw). rewrite IH. apply delete_delete.
Qed.

Lemma remaining_keywords_declared (attrs : list Attribute) (k : string)
    (kw : gmap string value) :
  In k (map name attrs) -> remaining_keywords attrs kw !! k = None.
Proof.
  induction attrs as [|a attrs IH]; [intros []|].
  cbn [map In remaining_keywords foldr]. fold (remaining_keywords attrs kw).
  intros H. destruct (decide (name a = k)) as [->|Hne].
  - apply lookup_delete_eq.
  - rewrite lookup_delete_ne by exact Hne. apply IH. tauto.
Qed.

Lemma remaining_keywords_other (attrs : list Attribute) (k : string)
    (kw : gmap string value) :
  ~ In k (map name attrs) -> remaining_keywords attrs kw !! k = kw !! k.
Proof.
  induction attrs as [|a attrs IH]; [reflexivity|].
  cbn [map In remaining_keywords foldr]. fold (remaining_keywords attrs kw).
  intros H. rewrite lookup_delete_ne by tauto. apply IH. tauto.
Qed.

(** One turn of the loop, when the attribute gets a value. *)
Lemma set_attributes_cons (d : nat) (a : Attribute) (rest : list Attribute)
    (kw : gmap string value) (self : instance) (v : value) :
  class_lookup (i_class self) "__characteristic_setattr__"
    = Some object_setattr ->
  resolve a kw = Ok v -> is_NOTHING v = false ->
  with_init.set_attributes (call_method (S d)) (a :: rest) kw self
  = with_init.set_attributes (call_method (S d)) rest (delete (name a) kw)
      (store (name a) v self).
Proof.
  intros Hw Hv Hn. cbn [with_init.set_attributes]. unfold resolve in Hv.
  assert (Hstep :
    (if is_NOTHING (default NOTHING (kw !! name a))
     then lift (get_default a) else mret (default NOTHING (kw !! name a)))
      self = (Ok v, self)).
  { destruct (kw !! name a) as [v0|].
    - change (default NOTHING (Some v0)) with v0.
      destruct (is_NOTHING v0).
      + unfold lift. now rewrite Hv.
      + injection Hv as ->. reflexivity.
    - change (default NOTHING (@None value)) with NOTHING.
      cbn [is_NOTHING]. unfold lift. now rewrite Hv. }
  rewrite (bind_run _ _ _ _ _ Hstep). rewrite Hn.
  rewrite (bind_run _ _ self self self) by reflexivity.
  assert (Hcall : call_attribute (call_method (S d))
                    "__characteristic_setattr__"
                    {| co_name := "characteristic_init";
                       f_owner := Some (c_id (i_class (id self))) |}
                    [VStr (name a); v] ∅ self
                  = (Ok tt, store (name a) v self)).
  { unfold call_attribute. rewrite Hw. apply call_object_setattr. }
  now rewrite (bind_run _ _ _ _ _ Hcall).
Qed.

Lemma set_attributes_values (d : nat) (attrs : list Attribute) :
  forall kw self,
    class_lookup (i_class self) "__characteristic_setattr__"
      = Some object_setattr ->
    NoDup (map name attrs) ->
    Forall (resolved kw) attrs ->
    with_init.set_attributes (call_method (S d)) attrs kw self
    = (Ok (remaining_keywords attrs kw),
       {| i_class := i_class self;
          i_dict := attribute_values attrs kw (i_dict self) |}).
Proof.
  induction attrs as [|a attrs IH]; intros kw self Hw Hnd Hall.
  - destruct self. reflexivity.
  - cbn [map] in Hnd. apply NoDup_cons in Hnd as [Ha Hnd].
    apply Forall_cons in Hall as [(v & Hv & Hn) Hall].
    assert (Ha' : ~ In (name a) (map name attrs))
      by (intros H; apply Ha; now apply list_elem_of_In).
    rewrite (set_attributes_cons _ _ _ _ _ _ Hw Hv Hn).
    rewrite IH; [| exact Hw | exact Hnd |].
    + cbn [remaining_keywords foldr attribute_values store i_class i_dict].
      fold (remaining_keywords attrs kw).
      fold (remaining_keywords attrs (delete (name a) kw)).
      rewrite Hv, remaining_keywords_delete, attribute_values_delete
        by exact Ha'.
      reflexivity.
    + apply Forall_forall. intros b Hb.
      destruct (proj1 (Forall_forall _ _) Hall b Hb) as (w & Hw' & Hn').
      exists w. split; [|exact Hn']. rewrite resolve_delete; [exact Hw'|].
      intros E. apply Ha'. rewrite <- E. apply in_map.
      now apply list_elem_of_In.
Qed.

Lemma recursion_limit_SS :
  Nat.pred recursion_limit = S (Nat.pred (Nat.pred recursion_limit)).
Proof. reflexivity. Qed.

Lemma remaining_keywords_empty (attrs : list Attribute)
    (kw : gmap string value) :
  (forall k, is_Some (kw !! k) -> In k (map name attrs)) ->
  remaining_keywords attrs kw = ∅.
Proof.
  intros H. apply map_eq. intros k. rewrite lookup_empty.
  destruct (in_dec string_dec k (map name attrs)) as [Hin|Hout].
  - now apply remaining_keywords_declared.
  - rewrite remaining_keywords_other by exact Hout.
    destruct (kw !! k) eqn:E; [|reflexivity].
    exfalso. apply Hout, H. rewrite E. eauto.
Qed.

(** What construction does once every attribute gets a value. *)
Lemma construct_run (cl : class) (here : frame) (args : list value)
    (kw : gmap string value) (attrs : list Attribute) (original : method) :
  class_lookup cl "__init__" = Some (characteristic_init_closure attrs) ->
  class_lookup cl "__characteristic_setattr__" = Some object_setattr ->
  class_lookup cl "__original_init__" = Some original ->
  NoDup (map name attrs) ->
  Forall (resolved kw) attrs ->
  construct cl here args kw =
  match call_method (Nat.pred recursion_limit) original
          (Some {| co_name := "characteristic_init";
                   f_owner := Some (c_id cl) |})
          args (remaining_keywords attrs kw)
          {| i_class := cl; i_dict := attribute_values attrs kw ∅ |} with
  | (Ok _, self) => Ok self
  | (Raise e, _) => Raise e
  end.
Proof.
  intros Hi Hw Ho Hnd Hall.
  rewrite (construct_runs_characteristic_init _ _ _ _ _ Hi).
  unfold with_init.characteristic_init.
  rewrite recursion_limit_SS at 1.
  rewrite (bind_run _ _ _ _ _
             (set_attributes_values _ attrs kw
                {| i_class := cl; i_dict := ∅ |} Hw Hnd Hall)).
  cbn [i_class i_dict].
  set (s1 := {| i_class := cl; i_dict := attribute_values attrs kw ∅ |}).
  rewrite (bind_run (gets id) _ s1 s1 s1) by reflexivity.
  unfold call_attribute. change (i_class s1) with cl. now rewrite Ho.
Qed.

(** X10: on a class whose initializer writes through [object]'s
    [__setattr__] and whose original [__init__] is [object]'s, and for
    attributes with distinct names, construction succeeds whenever each
    attribute gets a value (a keyword argument other than [NOTHING], or
    else its default or its factory's product) and every keyword names an
    attribute.  The new instance then holds, for each attribute, exactly
    that value, and holds nothing else. *)
Theorem X10_construct_stores_the_values (cl : class) (here : frame)
    (kw : gmap string value) (attrs : list Attribute) :
  class_lookup cl "__init__" = Some (characteristic_init_closure attrs) ->
  class_lookup cl "__characteristic_setattr__" = Some object_setattr ->
  class_lookup cl "__original_init__" = Some object_init ->
  NoDup (map name attrs) ->
  Forall (resolved kw) attrs ->
  (forall k, is_Some (kw !! k) -> In k (map name attrs)) ->
  exists self,
    construct cl here [] kw = Ok self
    /\ i_class self = cl
    /\ (forall a v, In a attrs -> resolve a kw = Ok v ->
                     i_dict self !! name a = Some v)
    /\ (forall k, ~ In k (map name attrs) -> i_dict self !! k = None).
Proof.
  intros Hi Hw Ho Hnd Hall Hkw.
  exists {| i_class := cl; i_dict := attribute_values attrs kw ∅ |}.
  split; [|split; [reflexivity|split]].
  - rewrite (construct_run _ _ _ _ _ _ Hi Hw Ho Hnd Hall).
    rewrite (remaining_keywords_empty _ _ Hkw).
    rewrite recursion_limit_SS. reflexivity.
  - intros a v Ha Hv. cbn [i_dict].
    exact (attribute_values_declared _ _ _ _ _ Hnd Ha Hv).
  - intros k Hk. cbn [i_dict]. now rewrite attribute_values_other.
Qed.

(** X11: the original [__init__] is called last, with the positional
    arguments unchanged and with the keyword arguments that name no
    attribute; it finds the attributes already set, and what it raises is
    what construction raises. *)
Theorem X11_original_init_gets_the_rest (cl : class) (here : frame)
    (args : list value) (kw : gmap string value) (attrs : list Attribute)
    (body : list value -> gmap string value -> M (gmap string value) unit) :
  class_lookup cl "__init__" = Some (characteristic_init_closure attrs) ->
  class_lookup cl "__characteristic_setattr__" = Some object_setattr ->
  class_lookup cl "__original_init__" = Some (user_function body) ->
  NoDup (map name attrs) ->
  Forall (resolved kw) attrs ->
  let rest := remaining_keywords attrs kw in
  construct cl here args kw =
    match body args rest (attribute_values attrs kw ∅) with
    | (Ok _, d) => Ok {| i_class := cl; i_dict := d |}
    | (Raise e, _) => Raise e
    end
  /\ (forall k, In k (map name attrs) -> rest !! k = None)
  /\ (forall k, ~ In k (map name attrs) -> rest !! k = kw !! k).
Proof.
  intros Hi Hw Ho Hnd Hall rest. split; [|split].
  - rewrite (construct_run _ _ _ _ _ _ Hi Hw Ho Hnd Hall).
    rewrite recursion_limit_SS. cbn [call_method i_class i_dict].
    fold rest. now destruct (body args rest _) as [[u|e] d].
  - intros k. apply remaining_keywords_declared.
  - intros k. apply remaining_keywords_other.
Qed.

Lemma set_attributes_supplied (call : caller) (attrs : list Attribute) :
  forall attrs' kw self,
    map name attrs = map name attrs' ->
    NoDup (map name attrs) ->
    Forall (fun a => exists v, kw !! name a = Some v /\ is_NOTHING v = false)
      attrs ->
    with_init.set_attributes call attrs kw self
    = with_init.set_attributes call attrs' kw self.
Proof.
  induction attrs as [|a attrs IH]; intros [|a' attrs'] kw self Hn Hnd Hall;
    try discriminate Hn; [reflexivity|].
  cbn [map] in Hn, Hnd. injection Hn as Ha Hn.
  apply NoDup_cons in Hnd as [Hfresh Hnd].
  apply Forall_cons in Hall as [(v & Hv & Hnot) Hall].
  cbn [with_init.set_attributes]. rewrite <- Ha, Hv.
  change (default NOTHING (Some v)) with v. rewrite Hnot.
  unfold_monad. cbv beta iota. rewrite Hnot.
  run_pair. apply IH; [exact Hn | exact Hnd |].
  apply Forall_forall. intros b Hb.
  destruct (proj1 (Forall_forall _ _) Hall b Hb) as (w & Hw & Hw').
  exists w. split; [|exact Hw']. rewrite lookup_delete_ne; [exact Hw|].
  intros E. apply Hfresh. rewrite E. now apply list_elem_of_fmap_2.
Qed.

(** X12: defaults and default factories are consulted only for attributes
    that are not passed: when every attribute (of distinct names) is passed
    as a keyword argument other than [NOTHING], the initializer behaves the
    same whatever defaults or factories the attributes declare, a factory
    that would raise included. *)
Theorem X12_defaults_unused_when_passed (call : caller)
    (attrs attrs' : list Attribute) (args : list value)
    (kw : gmap string value) (self : instance) :
  map name attrs = map name attrs' ->
  NoDup (map name attrs) ->
  Forall (fun a => exists v, kw !! name a = Some v /\ is_NOTHING v = false)
    attrs ->
  with_init.characteristic_init call attrs args kw self
  = with_init.characteristic_init call attrs' args kw self.
Proof.
  intros Hn Hnd Hall. unfold with_init.characteristic_init.
  unfold mbind at 1 3. unfold M_bind.
  now rewrite (set_attributes_supplied call attrs attrs' kw self Hn Hnd Hall).
Qed.

Lemma set_attributes_NOTHING (call : caller) (attrs : list Attribute)
    (k : string) :
  forall kw self,
    In k (map name attrs) ->
    with_init.set_attributes call attrs (<[k := NOTHING]> kw) self
    = with_init.set_attributes call attrs (delete k kw) self.
Proof.
  induction attrs as [|a attrs IH]; intros kw self Hin; [destruct Hin|].
  cbn [with_init.set_attributes].
  destruct (decide (name a = k)) as [->|Hne].
  - rewrite lookup_insert_eq, lookup_delete_eq, delete_insert_eq,
      delete_delete_eq. reflexivity.
  - rewrite lookup_insert_ne, lookup_delete_ne by congruence.
    rewrite delete_insert_ne by exact Hne.
    rewrite (delete_delete kw (name a) k).
    unfold_monad. run_pair. destruct (is_NOTHING _); [reflexivity|].
    run_pair. apply IH. destruct Hin as [Hin|Hin]; [congruence|exact Hin].
Qed.

(** X13: passing [NOTHING] as the keyword argument of a declared attribute
    is the same as not passing the argument: the initializer falls back on
    the default, or raises if there is none. *)
Theorem X13_NOTHING_counts_as_absent (call : caller) (attrs : list Attribute)
    (k : string) (args : list value) (kw : gmap string value)
    (self : instance) :
  In k (map name attrs) ->
  with_init.characteristic_init call attrs args (<[k := NOTHING]> kw) self
  = with_init.characteristic_init call attrs args (delete k kw) self.
Proof.
  intros Hin. unfold with_init.characteristic_init.
  unfold mbind at 1 3. unfold M_bind.
  now rewrite (set_attributes_NOTHING call attrs k kw self Hin).
Qed.

(** ** Normalisation in [with_init] and [immutable] *)

(** X15: without legacy defaults ([defaults] absent or empty) [with_init]
    normalises [attrs] exactly as [_ensure_attributes] does for the other
    decorators; and whatever the defaults, a list of plain names is always
    accepted and keeps its names in order. *)
Theorem X15_with_init_normalisation (attrs : list attr_decl)
    (defaults : gmap string value) :
  with_init.new_attrs attrs ∅ = _ensure_attributes attrs
  /\ (existsb isinstance_Attribute attrs = false ->
      exists l, with_init.new_attrs attrs defaults = Ok l
                /\ map name l = map declared_name attrs).
Proof.
  split.
  - induction attrs as [|a attrs IH]; [reflexivity|].
    cbn [with_init.new_attrs _ensure_attributes]. rewrite IH.
    destruct a as [s|a]; [|reflexivity].
    now rewrite lookup_empty.
  - induction attrs as [|a attrs IH]; [intros _; exists []; split; reflexivity|].
    cbn [existsb]. intros H. apply orb_false_iff in H as [Ha H].
    destruct (IH H) as (l & Hl & Hn). destruct a as [s|a]; [|discriminate].
    cbn [with_init.new_attrs]. rewrite Hl, !Attribute_init_plain.
    destruct (truthy _); eexists; (split; [reflexivity|]);
      cbn [map name declared_name]; now rewrite Hn.
Qed.

(** X5: the set of names [immutable] protects is exactly the set of
    declared names, whether they were given as plain names or as
    [Attribute] instances and however often; building it never raises. *)
Theorem X5_protected_names (attrs : list attr_decl) :
  exists p,
    immutable.protected attrs = Ok p
    /\ forall s, s ∈ p <-> In s (map declared_name attrs).
Proof.
  unfold immutable.protected. rewrite _ensure_attributes_run.
  eexists. split; [reflexivity|]. intros s.
  rewrite elem_of_list_to_set, list_elem_of_In, map_map.
  assert (E : map (fun d => name match d with
                                 | Name s0 => required s0
                                 | Attr a => a
                                 end) attrs = map declared_name attrs).
  { apply map_ext. intros [?|?]; reflexivity. }
  now rewrite E.
Qed.

(** ** What composition leaves alone *)

Lemma class_lookup_setattr_other (k k' : string) (m : method) (cl : class) :
  k <> k' -> class_lookup (snd (class_setattr k m cl)) k' = class_lookup cl k'.
Proof.
  intros H. rewrite class_lookup_setattr.
  destruct (String.eqb_spec k k'); [congruence | reflexivity].
Qed.

Lemma immutable_wrap_keeps (p : gset string) (cl : class) (k : string) :
  k <> "__original_setattr__" -> k <> "__setattr__" ->
  class_lookup (snd (immutable.wrap p cl)) k = class_lookup cl k.
Proof.
  intros H1 H2. destruct (class_has_setattr cl) as [m Hm].
  rewrite (immutable_wrap_run _ _ _ Hm). cbn [snd].
  rewrite !class_lookup_setattr_other by congruence. reflexivity.
Qed.

Lemma with_init_wrap_keeps (l : list Attribute) (cl : class) (k : string) :
  k <> "__original_init__" -> k <> "__init__" ->
  k <> "__characteristic_setattr__" ->
  class_lookup (snd (with_init.wrap l cl)) k = class_lookup cl k.
Proof.
  intros H1 H2 H3.
  destruct (class_has_setattr cl) as [m Hm], (class_has_init cl) as [i Hi].
  rewrite (with_init_wrap_run _ _ _ _ Hi Hm). cbn [snd].
  rewrite !class_lookup_setattr_other by congruence. reflexivity.
Qed.

Lemma immutable_wrap_identity (p : gset string) (cl : class) :
  c_id (snd (immutable.wrap p cl)) = c_id cl
  /\ c_name (snd (immutable.wrap p cl)) = c_name cl
  /\ c_bases (snd (immutable.wrap p cl)) = c_bases cl.
Proof.
  destruct (class_has_setattr cl) as [m Hm].
  rewrite (immutable_wrap_run _ _ _ Hm). repeat split.
Qed.

Lemma with_init_wrap_identity (l : list Attribute) (cl : class) :
  c_id (snd (with_init.wrap l cl)) = c_id cl
  /\ c_name (snd (with_init.wrap l cl)) = c_name cl
  /\ c_bases (snd (with_init.wrap l cl)) = c_bases cl.
Proof.
  destruct (class_has_setattr cl) as [m Hm], (class_has_init cl) as [i Hi].
  rewrite (with_init_wrap_run _ _ _ _ Hi Hm). repeat split.
Qed.

Lemma not_assigned_all (k : string) :
  ~ In k assigned_names -> Forall (fun k' => k' <> k) assigned_names.
Proof.
  intros H. apply Forall_forall. intros k' Hk' ->. apply H.
  now apply list_elem_of_In.
Qed.

Ltac not_assigned H :=
  let HF := fresh "HF" in
  pose proof (not_assigned_all _ H) as HF; unfold assigned_names in HF;
  repeat (apply Forall_cons in HF as [? HF]).

(** X18: whatever its arguments, and even when it raises, the decorator
    made by [attributes] leaves the identity, the name and the bases of the
    class unchanged, and changes no entry of its namespace other than the
    thirteen names it assigns. *)
Theorem X18_attributes_touches_only_its_names (attrs : list attr_decl)
    (defaults : option (gmap string value)) (create_init make_immutable : bool)
    (cl0 : class) :
  let cl := snd (attributes.wrap attrs defaults create_init make_immutable cl0)
  in
  c_id cl = c_id cl0 /\ c_name cl = c_name cl0 /\ c_bases cl = c_bases cl0
  /\ forall k, ~ In k assigned_names -> class_lookup cl k = class_lookup cl0 k.
Proof.
  intros cl. unfold cl.
  rewrite (attributes_wrap_run _ _ _ _ _ _ (_ensure_attributes_run attrs)).
  set (l := map _ attrs). cbv zeta.
  assert (H2 : let cl2 := before_initializer l make_immutable cl0 in
    c_id cl2 = c_id cl0 /\ c_name cl2 = c_name cl0
    /\ c_bases cl2 = c_bases cl0
    /\ forall k, ~ In k assigned_names ->
                 class_lookup cl2 k = class_lookup cl0 k).
  { unfold before_initializer. destruct make_immutable.
    - destruct (immutable_wrap_identity (list_to_set (map name l))
                  (snd (with_cmp.wrap l (snd (with_repr.wrap l cl0)))))
        as (-> & -> & ->).
      repeat split. intros k Hk. not_assigned Hk.
      rewrite immutable_wrap_keeps by congruence.
      apply with_repr_cmp_keeps. repeat constructor; assumption.
    - repeat split. intros k Hk. not_assigned Hk.
      apply with_repr_cmp_keeps. repeat constructor; assumption. }
  cbv zeta in H2. destruct H2 as (Hi & Hn & Hb & Hk).
  assert (H3 : forall l', let cl3 := snd (with_init.wrap l'
                             (before_initializer l make_immutable cl0)) in
    c_id cl3 = c_id cl0 /\ c_name cl3 = c_name cl0
    /\ c_bases cl3 = c_bases cl0
    /\ forall k, ~ In k assigned_names ->
                 class_lookup cl3 k = class_lookup cl0 k).
  { intros l' cl3. unfold cl3.
    destruct (with_init_wrap_identity l'
                (before_initializer l make_immutable cl0)) as (-> & -> & ->).
    repeat split; try assumption. intros k Hk'.
    rewrite with_init_wrap_keeps; [now apply Hk | | |];
      not_assigned Hk'; congruence. }
  destruct create_init; [|cbn [snd]; auto].
  destruct (with_init.new_attrs _ _) as [l'|e]; cbn [snd]; [apply H3 | auto].
Qed.

(** X19: [immutable] and [with_init] may be applied in either order: on a
    class that carries no [__original_setattr__] yet, both orders leave
    the same method under every name; in particular the initializer
    writes through the [__setattr__] the class had before the sentry. *)
Theorem X19_immutable_and_with_init_commute (p : gset string)
    (l : list Attribute) (cl0 : class) (k : string) :
  class_lookup cl0 "__original_setattr__" = None ->
  class_lookup (snd (with_init.wrap l (snd (immutable.wrap p cl0)))) k
  = class_lookup (snd (immutable.wrap p (snd (with_init.wrap l cl0)))) k
  /\ class_lookup (snd (immutable.wrap p (snd (with_init.wrap l cl0))))
       "__characteristic_setattr__"
     = class_lookup cl0 "__setattr__".
Proof.
  intros Hnone.
  destruct (class_has_setattr cl0) as [m Hm], (class_has_init cl0) as [i Hi].
  set (clA := snd (immutable.wrap p cl0)).
  set (clB := snd (with_init.wrap l cl0)).
  assert (HAs : class_lookup clA "__setattr__" = Some (sentry_closure p)).
  { unfold clA. rewrite (immutable_wrap_run _ _ _ Hm). cbn [snd].
    now rewrite class_lookup_setattr. }
  assert (HAo : class_lookup clA "__original_setattr__" = Some m).
  { unfold clA. rewrite (immutable_wrap_run _ _ _ Hm). cbn [snd].
    now rewrite !class_lookup_setattr. }
  assert (HAi : class_lookup clA "__init__" = Some i).
  { unfold clA. rewrite immutable_wrap_keeps by discriminate. exact Hi. }
  assert (HBs : class_lookup clB "__setattr__" = Some m).
  { unfold clB. rewrite with_init_wrap_keeps by discriminate. exact Hm. }
  rewrite (with_init_wrap_run l clA _ _ HAi HAs), HAo.
  rewrite (immutable_wrap_run p clB _ HBs).
  unfold clB. rewrite (with_init_wrap_run l cl0 _ _ Hi Hm), Hnone.
  unfold clA. rewrite (immutable_wrap_run _ _ _ Hm).
  cbn [snd default]. rewrite !class_lookup_setattr.
  split; [|now rewrite Hm].
  repeat match goal with
  | |- context [String.eqb ?a k] =>
      destruct (String.eqb_spec a k) as [<-|?]
  end; reflexivity.
Qed.

(** ** Decorating twice *)

Lemma nested_sentry_raises (p1 : gset string) (d : nat) :
  forall f_back attr v self,
    class_lookup (i_class self) "__original_setattr__"
      = Some (sentry_closure p1) ->
    exists e,
      call_method d (sentry_closure p1) f_back [attr; v] ∅ self
      = (Raise e, self)
      /\ (immutable.not_in attr p1 = true -> e = RecursionError).
Proof.
  induction d as [|d IH]; intros f_back attr v self Ho.
  - exists RecursionError. split; reflexivity.
  - rewrite call_sentry.
    unfold immutable.characteristic_immutability_sentry.
    destruct (immutable.not_in attr p1 || _) eqn:E.
    + unfold call_attribute. rewrite Ho. apply IH. exact Ho.
    + eexists. split; [reflexivity|].
      intros H. rewrite H in E. discriminate E.
Qed.

(** X16: applying [immutable] twice to a class disables assignment
    altogether: the second application stores the first sentry as
    [__original_setattr__], which then calls itself.  Every assignment to an
    instance raises and leaves the instance unchanged, whatever the
    attribute and whatever the caller, initializers included; when neither
    sentry refuses the write the exception is the interpreter's
    [RecursionError]. *)
Theorem X16_immutable_twice_blocks_assignment (p1 p2 : gset string)
    (cl0 : class) (self : instance) (here : frame) (attr : string)
    (v : value) :
  i_class self = snd (immutable.wrap p2 (snd (immutable.wrap p1 cl0))) ->
  exists e,
    assign here attr v self = (Raise e, self)
    /\ (attr ∉ p1 -> attr ∉ p2 \/ co_name here ∈ _VALID_INITS ->
        e = RecursionError).
Proof.
  intros Hself.
  destruct (class_has_setattr cl0) as [m Hm].
  assert (H1 : class_lookup (snd (immutable.wrap p1 cl0)) "__setattr__"
               = Some (sentry_closure p1)).
  { rewrite (immutable_wrap_run _ _ _ Hm). cbn [snd].
    now rewrite class_lookup_setattr. }
  assert (Hs : class_lookup (i_class self) "__setattr__"
               = Some (sentry_closure p2)).
  { rewrite Hself, (immutable_wrap_run _ _ _ H1). cbn [snd].
    now rewrite class_lookup_setattr. }
  assert (Ho : class_lookup (i_class self) "__original_setattr__"
               = Some (sentry_closure p1)).
  { rewrite Hself, (immutable_wrap_run _ _ _ H1). cbn [snd].
    now rewrite !class_lookup_setattr. }
  rewrite (assign_through_sentry _ _ _ _ _ Hs).
  unfold immutable.characteristic_immutability_sentry.
  destruct (immutable.not_in (VStr attr) p2 || _) eqn:E.
  - unfold call_attribute. rewrite Ho.
    destruct (nested_sentry_raises p1 (Nat.pred recursion_limit)
                (Some {| co_name := "characteristic_immutability_sentry";
                         f_owner := Some (c_id (i_class self)) |})
                (VStr attr) v self Ho) as (e & He & Hrec).
    exists e. split; [exact He|]. intros Hp1 _. apply Hrec.
    cbn [immutable.not_in]. now apply bool_decide_eq_true_2.
  - eexists. split; [reflexivity|]. intros _ H. exfalso.
    apply orb_false_iff in E as [E1 E2]. cbn [immutable.not_in] in E1.
    destruct H as [H|H].
    + now rewrite (bool_decide_eq_true_2 _ H) in E1.
    + now rewrite (bool_decide_eq_true_2 _ H) in E2.
Qed.

Lemma keeps_class_bind {A B} (m : M instance A) (f : A -> M instance B) :
  keeps_class m -> (forall a, keeps_class (f a)) -> keeps_class (m ≫= f).
Proof.
  intros Hm Hf self. unfold mbind, M_bind. specialize (Hm self).
  destruct (m self) as [[a|e] s1]; cbn [snd] in *; [|exact Hm].
  now rewrite (Hf a s1).
Qed.

Lemma keeps_class_call_attribute (call : caller) (attr : string)
    (here : frame) (args : list value) (kw : gmap string value) :
  (forall m f_back args kw, keeps_class (call m f_back args kw)) ->
  keeps_class (call_attribute call attr here args kw).
Proof.
  intros H self. unfold call_attribute.
  destruct (class_lookup _ _); [apply H | reflexivity].
Qed.

Lemma keeps_class_set_attributes (call : caller) (attrs : list Attribute) :
  (forall m f_back args kw, keeps_class (call m f_back args kw)) ->
  forall kw, keeps_class (with_init.set_attributes call attrs kw).
Proof.
  intros H. induction attrs as [|a attrs IH]; intros kw; [now intros self|].
  cbn [with_init.set_attributes]. apply keeps_class_bind.
  - destruct (is_NOTHING _); now intros self.
  - intros v. destruct (is_NOTHING v); [now intros self|].
    apply keeps_class_bind; [now intros self|]. intros self.
    apply keeps_class_bind; [|intros _; apply IH].
    now apply keeps_class_call_attribute.
Qed.

Lemma keeps_class_characteristic_init (call : caller)
    (attrs : list Attribute) (args : list value) (kw : gmap string value) :
  (forall m f_back args kw, keeps_class (call m f_back args kw)) ->
  keeps_class (with_init.characteristic_init call attrs args kw).
Proof.
  intros H. unfold with_init.characteristic_init. apply keeps_class_bind.
  - now apply keeps_class_set_attributes.
  - intros kw'. apply keeps_class_bind; [now intros self|]. intros self.
    now apply keeps_class_call_attribute.
Qed.

(** No call changes the class of the instance it works on. *)
Lemma keeps_class_call_method (d : nat) :
  forall m f_back args kw, keeps_class (call_method d m f_back args kw).
Proof.
  induction d as [|d IH]; intros m f_back args kw; [now intros self|].
  destruct m; cbn [call_method];
    try (destruct args as [|? [|? [|? ?]]]; try (now intros self);
         destruct (bool_decide (kw = ∅)); now intros self).
  - destruct args as [|[] [|? [|? ?]]]; try (now intros self);
      destruct (bool_decide (kw = ∅)); now intros self.
  - intros self. now destruct (body args kw (i_dict self)).
  - destruct args as [|? ?]; [|now intros self].
    destruct (bool_decide (kw = ∅)); [|now intros self].
    intros self. unfold_monad. cbn [id].
    now destruct (with_cmp.attrs_to_tuple attrs self).
  - destruct args as [|? ?]; [|now intros self].
    destruct (bool_decide (kw = ∅)); [|now intros self].
    intros self. unfold_monad. cbn [id].
    now destruct (with_cmp.attrs_to_tuple attrs self).
  - now apply keeps_class_characteristic_init.
  - destruct args as [|attr [|v [|? ?]]]; try (now intros self).
    destruct (bool_decide (kw = ∅)); [|now intros self].
    intros self. unfold immutable.characteristic_immutability_sentry.
    destruct (_ || _); [|reflexivity].
    now apply keeps_class_call_attribute.
Qed.

Lemma reentrant_init_raises (l1 : list Attribute) (d : nat) :
  forall f_back args kw self,
    class_lookup (i_class self) "__original_init__"
      = Some (characteristic_init_closure l1) ->
    exists e self',
      call_method d (characteristic_init_closure l1) f_back args kw self
      = (Raise e, self').
Proof.
  induction d as [|d IH]; intros f_back args kw self Ho.
  - exists RecursionError, self. reflexivity.
  - rewrite call_characteristic_init.
    unfold with_init.characteristic_init. unfold mbind at 1. unfold M_bind.
    pose proof (keeps_class_set_attributes (call_method d) l1
                  (keeps_class_call_method d) kw self) as Hc.
    destruct (with_init.set_attributes (call_method d) l1 kw self)
      as [[kw'|e] s1]; [|eauto].
    cbn [snd] in Hc. unfold_monad. cbn [id].
    unfold call_attribute. rewrite Hc, Ho. apply IH. now rewrite Hc.
Qed.

(** X17: applying [with_init] twice to a class makes construction
    impossible: the second application stores the first initializer as
    [__original_init__], which then calls itself, so every construction
    raises (a missing-attribute [ValueError] on the way, or else the
    interpreter's [RecursionError]). *)
Theorem X17_with_init_twice_blocks_construction (l1 l2 : list Attribute)
    (cl0 : class) (here : frame) (args : list value)
    (kw : gmap string value) :
  let cl := snd (with_init.wrap l2 (snd (with_init.wrap l1 cl0))) in
  exists e, construct cl here args kw = Raise e.
Proof.
  intros cl.
  destruct (init_lookups l1 cl0) as (H1 & _).
  destruct (init_lookups l2 (snd (with_init.wrap l1 cl0)))
    as (Hi & Ho & _).
  fold cl in Hi, Ho. rewrite H1 in Ho.
  rewrite (construct_runs_characteristic_init _ _ _ _ _ Hi).
  unfold with_init.characteristic_init. unfold mbind at 1. unfold M_bind.
  pose proof (keeps_class_set_attributes
                (call_method (Nat.pred recursion_limit)) l2
                (keeps_class_call_method _) kw
                {| i_class := cl; i_dict := ∅ |}) as Hc.
  destruct (with_init.set_attributes _ l2 kw _) as [[kw'|e] s1]; [|eauto].
  cbn [snd i_class] in Hc. unfold_monad. cbn [id].
  unfold call_attribute. rewrite Hc, Ho.
  destruct (reentrant_init_raises l1 (Nat.pred recursion_limit)
              (Some {| co_name := "characteristic_init";
                       f_owner := Some (c_id cl) |}) args kw' s1)
    as (e & s2 & He); [now rewrite Hc|].
  rewrite He. eauto.
Qed.

(** ** From decoration to construction *)

Lemma new_attrs_without_defaults (attrs : list attr_decl) :
  with_init.new_attrs attrs ∅ = _ensure_attributes attrs.
Proof.
  induction attrs as [|a attrs IH]; [reflexivity|].
  cbn [with_init.new_attrs _ensure_attributes]. rewrite IH.
  destruct a as [s|a]; [|reflexivity].
  now rewrite lookup_empty.
Qed.

(** The class [attributes(attrs)] makes of a class that has [object]'s
    [__setattr__] and [__init__]. *)
Lemma decorated_plain_class (attrs : list attr_decl) (make_immutable : bool)
    (cl0 : class) (l : list Attribute) :
  class_lookup cl0 "__setattr__" = Some object_setattr ->
  class_lookup cl0 "__init__" = Some object_init ->
  class_lookup cl0 "__original_setattr__" = None ->
  _ensure_attributes attrs = Ok l ->
  let cl := snd (attributes.wrap attrs None true make_immutable cl0) in
  class_lookup cl "__init__" = Some (characteristic_init_closure l)
  /\ class_lookup cl "__characteristic_setattr__" = Some object_setattr
  /\ class_lookup cl "__original_init__" = Some object_init.
Proof.
  intros Hs Hi Ho Hl cl. unfold cl.
  rewrite (attributes_wrap_run _ _ _ _ _ _ Hl). cbv zeta.
  change (default ∅ (@None (gmap string value))) with (∅ : gmap string value).
  rewrite new_attrs_without_defaults, Hl. cbn [snd].
  destruct (init_lookups l (before_initializer l make_immutable cl0))
    as (H1 & H2 & H3 & _).
  rewrite H1, H2, H3. split; [reflexivity|].
  destruct make_immutable.
  - destruct (guard_lookups l cl0) as (G1 & G2 & G3 & _).
    rewrite G2, G3, Hs, Hi. split; reflexivity.
  - unfold before_initializer.
    rewrite !with_repr_cmp_keeps by distinct_keys.
    rewrite Ho, Hs, Hi. split; reflexivity.
Qed.

(** X14: [attributes(attrs)], with or without the sentry, turns a class
    that has [object]'s [__setattr__] and [__init__] into one that can be
    constructed from keyword arguments: if the declared names are distinct,
    every attribute gets a value and every keyword names an attribute, the
    constructor returns an instance of the class that carries every
    declared attribute with that value, so that its comparisons, hash and
    representation find what they read. *)
Theorem X14_decorated_class_constructs (attrs : list attr_decl)
    (make_immutable : bool) (cl0 : class) (here : frame)
    (kw : gmap string value) (l : list Attribute) :
  class_lookup cl0 "__setattr__" = Some object_setattr ->
  class_lookup cl0 "__init__" = Some object_init ->
  class_lookup cl0 "__original_setattr__" = None ->
  _ensure_attributes attrs = Ok l ->
  NoDup (map name l) ->
  Forall (resolved kw) l ->
  (forall k, is_Some (kw !! k) -> In k (map name l)) ->
  let cl := snd (attributes.wrap attrs None true make_immutable cl0) in
  exists self,
    construct cl here [] kw = Ok self
    /\ i_class self = cl
    /\ has_attributes l self = true
    /\ (forall a v, In a l -> resolve a kw = Ok v ->
                    getattr self (name a) = Ok v)
    /\ with_cmp.eq l self self = Ok (VBool true).
Proof.
  intros Hs Hi Ho Hl Hnd Hall Hkw cl.
  destruct (decorated_plain_class attrs make_immutable cl0 l Hs Hi Ho Hl)
    as (H1 & H2 & H3).
  fold cl in H1, H2, H3.
  set (self := {| i_class := cl; i_dict := attribute_values l kw ∅ |}).
  assert (Hhas : has_attributes l self = true).
  { apply forallb_forall. intros a Ha. apply bool_decide_eq_true_2.
    destruct (proj1 (Forall_forall _ _) Hall a) as (v & Hv & _).
    { now apply list_elem_of_In. }
    exists v. exact (attribute_values_declared _ _ _ _ _ Hnd Ha Hv). }
  exists self. split; [|split; [reflexivity|split; [exact Hhas|split]]].
  - rewrite (construct_run _ _ _ _ _ _ H1 H2 H3 Hnd Hall).
    rewrite (remaining_keywords_empty _ _ Hkw).
    rewrite recursion_limit_SS. reflexivity.
  - intros a v Ha Hv. unfold getattr, self. cbn [i_dict].
    now rewrite (attribute_values_declared _ _ _ _ _ Hnd Ha Hv).
  - rewrite (eq_carried _ _ _ Hhas Hhas). unfold class_is.
    now rewrite Nat.eqb_refl, pairwise_equal_refl.
Qed.

(** ** Errors of a default factory *)


(** ** The further properties at concrete inputs *)

(** X2 at two points. *)
Lemma X2_witness :
  with_cmp.eq Examples.xy (Examples.point Examples.Point 1 2)
    (Examples.point Examples.Point 1 2) = Ok (VBool true).
Proof.
  refine (proj1 (X2_eq_reflexive_symmetric Examples.xy
            (Examples.point Examples.Point 1 2)
            (Examples.point Examples.Point 3 4) _ _));
    reflexivity.
Defined.


(** X6 at an instance of [Point] that has [x] but not [y]. *)
Lemma X6_witness :
  let a := {| i_class := Examples.Point; i_dict := {[ "x" := VInt 1 ]} |} in
  with_cmp.eq Examples.xy a (Examples.point Examples.Point 1 2)
    = Raise (AttributeError "y")
  /\ with_repr.repr_ Examples.xy a = Raise (AttributeError "y").
Proof.
  cbv zeta.
  pose proof (@X6_missing_attribute_raises Examples.number_PyHash
                [required "x"] [] (required "y")
                {| i_class := Examples.Point; i_dict := {[ "x" := VInt 1 ]} |}
                (Examples.point Examples.Point 1 2)
                eq_refl eq_refl eq_refl) as H.
  cbv zeta in H. split; [exact (proj1 H)|].
  exact (proj2 (proj2 (proj2 (proj2 (proj2 (proj2 (proj2 H))))))).
Defined.

(** X7 at a point that also stores an undeclared [z]. *)
Lemma X7_witness :
  with_repr.repr_ Examples.xy
    (store "z" (VInt 9) (Examples.point Examples.Point 1 2))
  = with_repr.repr_ Examples.xy (Examples.point Examples.Point 1 2).
Proof.
  refine (proj2 (proj2 (@X7_undeclared_attributes_ignored
            Examples.number_PyHash Examples.xy "z" (VInt 9)
            (Examples.point Examples.Point 1 2)
            (Examples.point Examples.Point 1 2) _))).
  vm_compute. intros H. repeat destruct H as [H|H]; try discriminate H.
  exact H.
Defined.

(** X8 at a point and an instance of its subclass. *)
Lemma X8_witness :
  exists h,
    @with_cmp.hash_ Examples.number_PyHash Examples.xy
      (Examples.point Examples.Point 1 2) = Ok h
    /\ @with_cmp.hash_ Examples.number_PyHash Examples.xy
         (Examples.point Examples.SubPoint 1 2) = Ok h.
Proof.
  refine (@X8_hash_ignores_the_class Examples.number_PyHash Examples.xy
            (Examples.point Examples.Point 1 2)
            (Examples.point Examples.SubPoint 1 2) _).
  reflexivity.
Defined.

(** X9 at a [Person] named Ann, aged 30. *)
Lemma X9_witness :
  with_repr.repr_ [required "name"; required "age"]
    {| i_class := Examples.plain 2 "Person";
       i_dict := <["name" := VStr "Ann"]> (<["age" := VInt 30]> ∅) |}
  = Ok "<Person(name='Ann', age=30)>".
Proof.
  refine (proj1 (X9_repr_lists_the_attributes
            [required "name"; required "age"]
            {| i_class := Examples.plain 2 "Person";
               i_dict := <["name" := VStr "Ann"]> (<["age" := VInt 30]> ∅) |}
            _)).
  reflexivity.
Defined.

(** X10 at [Point(x=1, y=2)]. *)
Lemma X10_witness :
  exists self,
    construct Examples.Point Examples.module_level []
      (<["x" := VInt 1]> (<["y" := VInt 2]> ∅)) = Ok self
    /\ i_class self = Examples.Point
    /\ (forall a v, In a Examples.xy ->
          resolve a (<["x" := VInt 1]> (<["y" := VInt 2]> ∅)) = Ok v ->
          i_dict self !! name a = Some v)
    /\ (forall k, ~ In k (map name Examples.xy) -> i_dict self !! k = None).
Proof.
  refine (X10_construct_stores_the_values Examples.Point
            Examples.module_level (<["x" := VInt 1]> (<["y" := VInt 2]> ∅))
            Examples.xy _ _ _ _ _ _).
  - vm_compute. reflexivity.
  - vm_compute. reflexivity.
  - vm_compute. reflexivity.
  - apply (bool_decide_unpack _). vm_compute. exact I.
  - repeat constructor; eexists; split; reflexivity.
  - intros k [v Hv]. cbn [map Examples.xy name In].
    destruct (decide (k = "x")) as [->|Hx]; [tauto|].
    destruct (decide (k = "y")) as [->|Hy]; [tauto|].
    rewrite !lookup_insert_ne, lookup_empty in Hv by congruence.
    discriminate Hv.
Defined.

(** X11 at [Hooked(7, x=1, colour="red")]. *)
Lemma X11_witness :
  construct Examples.Hooked Examples.module_level [VInt 7]
    (<["x" := VInt 1]> (<["colour" := VStr "red"]> ∅))
  = Ok {| i_class := Examples.Hooked;
          i_dict := <["n_args" := VInt 1]>
                      (<["n_kw" := VInt 1]> (<["x" := VInt 1]> ∅)) |}.
Proof.
  refine (eq_trans (proj1 (X11_original_init_gets_the_rest Examples.Hooked
            Examples.module_level [VInt 7]
            (<["x" := VInt 1]> (<["colour" := VStr "red"]> ∅))
            [required "x"] Examples.counting_init _ _ _ _ _)) _).
  - vm_compute. reflexivity.
  - vm_compute. reflexivity.
  - vm_compute. reflexivity.
  - apply (bool_decide_unpack _). vm_compute. exact I.
  - repeat constructor; eexists; split; reflexivity.
  - vm_compute. reflexivity.
Defined.

(** X12 at [x] passed, with and without a failing factory. *)
Lemma X12_witness :
  with_init.characteristic_init (call_method recursion_limit)
    [Examples.x_failing] [] {[ "x" := VInt 1 ]}
    {| i_class := Examples.Unlucky; i_dict := ∅ |}
  = with_init.characteristic_init (call_method recursion_limit)
      [required "x"] [] {[ "x" := VInt 1 ]}
      {| i_class := Examples.Unlucky; i_dict := ∅ |}.
Proof.
  refine (X12_defaults_unused_when_passed (call_method recursion_limit)
            [Examples.x_failing] [required "x"] [] {[ "x" := VInt 1 ]}
            {| i_class := Examples.Unlucky; i_dict := ∅ |} _ _ _).
  - reflexivity.
  - apply (bool_decide_unpack _). vm_compute. exact I.
  - repeat constructor. exists (VInt 1). split; reflexivity.
Defined.

(** X13 at [x=NOTHING]. *)
Lemma X13_witness :
  with_init.characteristic_init (call_method recursion_limit)
    [required "x"] [] (<["x" := NOTHING]> ∅)
    {| i_class := Examples.Unlucky; i_dict := ∅ |}
  = with_init.characteristic_init (call_method recursion_limit)
      [required "x"] [] (delete "x" ∅)
      {| i_class := Examples.Unlucky; i_dict := ∅ |}.
Proof.
  refine (X13_NOTHING_counts_as_absent (call_method recursion_limit)
            [required "x"] "x" [] ∅
            {| i_class := Examples.Unlucky; i_dict := ∅ |} _).
  left. reflexivity.
Defined.

(** X14 at [attributes(["x", "y"])] on a plain class. *)
Lemma X14_witness :
  exists self,
    construct Examples.Point Examples.module_level []
      (<["x" := VInt 1]> (<["y" := VInt 2]> ∅)) = Ok self
    /\ i_class self = Examples.Point
    /\ has_attributes Examples.xy self = true
    /\ (forall a v, In a Examples.xy ->
          resolve a (<["x" := VInt 1]> (<["y" := VInt 2]> ∅)) = Ok v ->
          getattr self (name a) = Ok v)
    /\ with_cmp.eq Examples.xy self self = Ok (VBool true).
Proof.
  refine (X14_decorated_class_constructs [Name "x"; Name "y"] true
            (Examples.plain 1 "Point") Examples.module_level
            (<["x" := VInt 1]> (<["y" := VInt 2]> ∅)) Examples.xy
            _ _ _ _ _ _ _).
  - reflexivity.
  - reflexivity.
  - reflexivity.
  - reflexivity.
  - apply (bool_decide_unpack _). vm_compute. exact I.
  - repeat constructor; eexists; split; reflexivity.
  - intros k [v Hv]. cbn [map Examples.xy name In].
    destruct (decide (k = "x")) as [->|Hx]; [tauto|].
    destruct (decide (k = "y")) as [->|Hy]; [tauto|].
    rewrite !lookup_insert_ne, lookup_empty in Hv by congruence.
    discriminate Hv.
Defined.

(** X16 at the class [Twice]. *)
Lemma X16_witness :
  exists e,
    assign Examples.foreign_init "z" (VInt 1)
      {| i_class := Examples.Twice; i_dict := ∅ |}
    = (Raise e, {| i_class := Examples.Twice; i_dict := ∅ |})
    /\ ("z" ∉ ({[ "y" ]} : gset string) ->
        "z" ∉ ({[ "x" ]} : gset string)
        \/ co_name Examples.foreign_init ∈ _VALID_INITS ->
        e = RecursionError).
Proof.
  refine (X16_immutable_twice_blocks_assignment {[ "y" ]} {[ "x" ]}
            (Examples.plain 11 "Twice")
            {| i_class := Examples.Twice; i_dict := ∅ |}
            Examples.foreign_init "z" (VInt 1) _).
  reflexivity.
Defined.

(** X19 at a plain class. *)
Lemma X19_witness :
  class_lookup
    (snd (immutable.wrap {[ "x" ]}
            (snd (with_init.wrap [required "x"] (Examples.plain 13 "Either")))))
    "__characteristic_setattr__"
  = Some object_setattr.
Proof.
  refine (proj2 (X19_immutable_and_with_init_commute {[ "x" ]}
                   [required "x"] (Examples.plain 13 "Either")
                   "__init__" _)).
  reflexivity.
Defined.

